(** * ComplianceEngine: a shallow embedding of the batch-compliance contract

    The contract of [smart_contracts/compliance_engine/contract.py] keeps all
    of its data in AVM boxes (byte string to byte string) and reports
    through the transaction log.  Every ABI method is embedded below as a
    computation over the boxes and the log that either returns or aborts,
    at one of the source's [assert] statements or at a call that fails. *)

From Stdlib Require Import NArith Ascii String.
From stdpp Require Import gmap strings list fin_maps.

Open Scope string_scope.
Open Scope N_scope.

(** ** Byte strings and 64-bit integers *)

(** [Bytes] of the AVM: a sequence of 8-bit characters. *)
Abbreviation Bytes := string (only parsing).
(** An account address (32 bytes on chain; the contract only ever
    concatenates and compares it). *)
Abbreviation Address := string (only parsing).

(** [UInt64] values are naturals below [2^64]. *)
Definition UInt64_max : N := 2 ^ 64.

(** Big-endian encoding of [n] on [len] bytes. *)
Fixpoint be_bytes (len : nat) (n : N) : Bytes :=
  match len with
  | O => ""
  | S k => be_bytes k (n / 256) +:+ String (ascii_of_N (n mod 256)) ""
  end.

(** [op.itob]: the 8-byte big-endian image of a [UInt64]. *)
Definition itob (n : N) : Bytes := be_bytes 8 n.

Fixpoint be_value (acc : N) (b : Bytes) : N :=
  match b with
  | "" => acc
  | String c r => be_value (acc * 256 + N_of_ascii c) r
  end.

(** [op.btoi]: big-endian value of at most 8 bytes; the opcode fails on
    longer input. *)
Definition btoi (b : Bytes) : option N :=
  if (String.length b <=? 8)%nat then Some (be_value 0 b) else None.

(** ** Constants of the source *)

Definition STATUS_CREATED : N := 0.
Definition STATUS_APPROVED : N := 1.
Definition STATUS_CERTIFIED : N := 2.

Definition ROLE_ADMIN : N := 0.
Definition ROLE_VENDOR : N := 1.
Definition ROLE_INSPECTOR : N := 2.

(** ** Box keys

    The four key builders of the source: a fixed tag followed by the
    account or batch bytes. *)

Definition role_key (account : Address) : Bytes := "role:" +:+ account.
Definition state_key (batch_id : Bytes) : Bytes := "batch:" +:+ batch_id.
Definition asset_key (batch_id : Bytes) : Bytes := "asset:" +:+ batch_id.
Definition vendor_key (vendor : Address) : Bytes := "vendor:" +:+ vendor.

(** ** Execution state *)

(** One [arc4.emit] record: the event name and its payload string. *)
Record event := Event { ev_name : string; ev_data : string }.

(** What a call can observe and change: the application's boxes and the
    log of the events emitted so far. *)
Record world := World {
  boxes : gmap string string;
  logs : list event
}.

(** Why a call stops.  [AssertFailed] carries the message of the failing
    [assert]; [AttributeError] the name of a method the program calls on a
    value that does not have it; the other three are failures of the opcodes
    themselves. *)
Inductive failure :=
| AssertFailed (msg : string)
| AttributeError (name : string)
| BtoiTooLong
| BoxPutLength
| InnerTxnRejected.

(** A computation either finishes with a value, or aborts.  In both cases it
    hands back the world as it stood at that point, so that the writes made
    before an abort stay visible to whoever interprets the result. *)
Inductive outcome (A : Type) :=
| Done (a : A) (w : world)
| Abort (f : failure) (w : world).
Arguments Done {A} a w.
Arguments Abort {A} f w.

Definition avm (A : Type) : Type := world -> outcome A.

Definition avm_ret {A} (a : A) : avm A := fun w => Done a w.

Definition avm_bind {A B} (m : avm A) (k : A -> avm B) : avm B :=
  fun w =>
    match m w with
    | Done a w' => k a w'
    | Abort f w' => Abort f w'
    end.

Declare Scope avm_scope.
Delimit Scope avm_scope with avm.
Notation "'let*' x ':=' m 'in' k" := (avm_bind m (fun x => k))
  (at level 10, x pattern, m at level 100, k at level 200) : avm_scope.
Open Scope avm_scope.

(** [assert cond, msg] *)
Definition assert_ (cond : bool) (msg : string) : avm unit :=
  fun w => if cond then Done tt w else Abort (AssertFailed msg) w.

(** [op.btoi] lifted to computations. *)
Definition op_btoi (b : Bytes) : avm N :=
  fun w => match btoi b with Some n => Done n w | None => Abort BtoiTooLong w end.

(** [op.Box.get]: the contents (empty when the box is absent) and the
    existence flag. *)
Definition Box_get (key : Bytes) : avm (Bytes * bool) :=
  fun w =>
    match boxes w !! key with
    | Some v => Done (v, true) w
    | None => Done ("", false) w
    end.

(** How a put treats a box that already exists with another length.
    [op.Box.put] refuses to change the length of an existing box: that is
    [KeepsLength].  [Overwrites] is the put of a plain key-value store,
    which replaces the contents whatever their length; it is not what the
    contract runs on, and is kept only so that the laws below are seen not to
    depend on the refusal. *)
Inductive put_rule := Overwrites | KeepsLength.

Definition put_allowed (rule : put_rule) (old : option Bytes) (new : Bytes) : bool :=
  match rule, old with
  | KeepsLength, Some v => (String.length v =? String.length new)%nat
  | _, _ => true
  end.

(** [arc4.emit] *)
Definition emit (name : string) (data : string) : avm unit :=
  fun w => Done tt (World (boxes w) (logs w ++ [Event name data])).

(** [b.hex()] on a [Bytes] of algopy.  The class has no such method, so
    evaluating the call raises. *)
Definition Bytes_hex (b : Bytes) : avm string :=
  fun w => Abort (AttributeError "hex") w.

(** [b.decode()] on a [Bytes] of algopy: no such method either. *)
Definition Bytes_decode (b : Bytes) : avm string :=
  fun w => Abort (AttributeError "decode") w.

(** ** The contract *)

Section ComplianceEngine.

(** The storage rule of the platform. *)
Variable rule : put_rule.
(** [Global.creator_address]: the account that deployed the application. *)
Variable creator_address : Address.

(** [op.Box.put]: creates the box, or replaces its contents when the
    platform allows it. *)
Definition Box_put (key value : Bytes) : avm unit :=
  fun w =>
    if put_allowed rule (boxes w !! key) value
    then Done tt (World (<[key := value]> (boxes w)) (logs w))
    else Abort BoxPutLength w.

(** [itxn.AssetConfig(...).submit()] followed by
    [created_asset.created_asset.id].  Whether the ledger accepts the inner
    transaction, and the identifier it assigns, are not decided by the
    contract: [minted] is the ledger's answer for this call. *)
Definition AssetConfig_submit (asset_name : Bytes) (minted : option N) : avm N :=
  fun w =>
    match minted with
    | Some asa_id => Done asa_id w
    | None => Abort InnerTxnRejected w
    end.

(** *** Original methods *)

Definition create_batch (batch_id : N) : avm N := avm_ret 0.

Definition approve_batch (batch_id : N) : avm N := avm_ret 1.

Definition get_batch_status (batch_id : N) : avm N := avm_ret 1.

(** *** Batch lifecycle *)

Definition assign_role (sender : Address) (account : Address) (role : N) : avm N :=
  let* _ := assert_ (bool_decide (sender = creator_address))
                    "Only admin can assign roles" in
  let* _ := assert_ ((role =? 1) || (role =? 2)) "Invalid role" in
  let key := "role:" +:+ account in
  let* _ := Box_put key (itob role) in
  let* account_hex := Bytes_hex account in
  let* sender_hex := Bytes_hex sender in
  let log_event := "assign_role|" +:+ account_hex +:+ "|" +:+ sender_hex in
  let* _ := emit "assign_role" log_event in
  avm_ret role.

Definition create_batch_v2 (sender : Address) (batch_id : Bytes) : avm N :=
  let role_key := "role:" +:+ sender in
  let* (role_val, role_exists) := Box_get role_key in
  let* _ := assert_ role_exists "Sender has no assigned role" in
  let* r := op_btoi role_val in
  let* _ := assert_ (r =? 1) "Only ROLE_VENDOR can create batches" in
  let state_key := "batch:" +:+ batch_id in
  let* (_, already_exists) := Box_get state_key in
  let* _ := assert_ (negb already_exists) "Batch already exists" in
  let* _ := Box_put state_key (itob 0) in
  let vendor_key := "vendor:" +:+ sender in
  let* (existing, vend_exists) := Box_get vendor_key in
  let new_val := if vend_exists : bool
                 then existing +:+ "|" +:+ batch_id
                 else batch_id in
  let* _ := Box_put vendor_key new_val in
  let* batch_hex := Bytes_hex batch_id in
  let* sender_hex := Bytes_hex sender in
  let log_event := "create_batch|" +:+ batch_hex +:+ "|" +:+ sender_hex in
  let* _ := emit "create_batch" log_event in
  avm_ret 0.

Definition approve_batch_v2 (sender : Address) (batch_id : Bytes) : avm N :=
  let role_key := "role:" +:+ sender in
  let* (role_val, role_exists) := Box_get role_key in
  let* _ := assert_ role_exists "Sender has no assigned role" in
  let* r := op_btoi role_val in
  let* _ := assert_ (r =? 2) "Only ROLE_INSPECTOR can approve batches" in
  let state_key := "batch:" +:+ batch_id in
  let* (state_val, state_exists) := Box_get state_key in
  let* _ := assert_ state_exists "Batch does not exist" in
  let* st := op_btoi state_val in
  let* _ := assert_ (st =? 0) "Batch must be in CREATED state" in
  let* _ := Box_put state_key (itob 1) in
  let* batch_hex := Bytes_hex batch_id in
  let* sender_hex := Bytes_hex sender in
  let log_event := "approve_batch|" +:+ batch_hex +:+ "|" +:+ sender_hex in
  let* _ := emit "approve_batch" log_event in
  avm_ret 1.

Definition certify_batch (sender : Address) (minted : option N)
    (batch_id : Bytes) : avm N :=
  let is_admin := bool_decide (sender = creator_address) in
  let* _ :=
    if negb is_admin then
      let role_key := "role:" +:+ sender in
      let* (role_val, role_exists) := Box_get role_key in
      let* _ := assert_ role_exists "Sender has no assigned role" in
      let* r := op_btoi role_val in
      assert_ (r =? 2) "Only admin or ROLE_INSPECTOR can certify"
    else avm_ret tt in
  let state_key := "batch:" +:+ batch_id in
  let* (state_val, state_exists) := Box_get state_key in
  let* _ := assert_ state_exists "Batch does not exist" in
  let* st := op_btoi state_val in
  let* _ := assert_ (st =? 1) "Batch must be in APPROVED state" in
  let* _ := Box_put state_key (itob 2) in
  let asset_name := "CERT-" +:+ batch_id in
  let* asa_id := AssetConfig_submit asset_name minted in
  let asset_key := "asset:" +:+ batch_id in
  let* _ := Box_put asset_key (itob asa_id) in
  let* batch_hex := Bytes_hex batch_id in
  let* sender_hex := Bytes_hex sender in
  let log_event := "certify_batch|" +:+ batch_hex +:+ "|" +:+ sender_hex in
  let* _ := emit "certify_batch" log_event in
  avm_ret 2.

(** *** Registry reads *)

Definition get_batch_status_v2 (batch_id : Bytes) : avm N :=
  let state_key := "batch:" +:+ batch_id in
  let* (state_val, state_exists) := Box_get state_key in
  if state_exists : bool then op_btoi state_val else avm_ret 99.

Definition get_batch_asset (batch_id : Bytes) : avm N :=
  let asset_key := "asset:" +:+ batch_id in
  let* (asset_val, asset_exists) := Box_get asset_key in
  if asset_exists : bool then op_btoi asset_val else avm_ret 0.

Definition get_vendor_batches (vendor : Address) : avm string :=
  let vendor_key := "vendor:" +:+ vendor in
  let* (vendor_val, vend_exists) := Box_get vendor_key in
  if vend_exists : bool then
    let* text := Bytes_decode vendor_val in avm_ret text
  else avm_ret "".

Definition get_role (account : Address) : avm N :=
  if bool_decide (account = creator_address) then avm_ret 0
  else
    let role_key := "role:" +:+ account in
    let* (role_val, role_exists) := Box_get role_key in
    if role_exists : bool then op_btoi role_val else avm_ret 99.

End ComplianceEngine.

(** ** Application calls *)

(** The ABI methods of the contract with their arguments. *)
Inductive method :=
| Create_batch (batch_id : N)
| Approve_batch (batch_id : N)
| Get_batch_status (batch_id : N)
| Assign_role (account : Address) (role : N)
| Create_batch_v2 (batch_id : Bytes)
| Approve_batch_v2 (batch_id : Bytes)
| Certify_batch (batch_id : Bytes)
| Get_batch_status_v2 (batch_id : Bytes)
| Get_batch_asset (batch_id : Bytes)
| Get_vendor_batches (vendor : Address)
| Get_role (account : Address).

(** One application call: who sends it ([Txn.sender]), what the ledger
    would answer to an asset-creation inner transaction issued by it, and
    the method invoked. *)
Record call := Call {
  sender : Address;
  minted : option N;
  target : method
}.

Inductive retval :=
| RUInt64 (n : N)
| RString (s : string).

(** What the caller of an application call sees. *)
Inductive result :=
| Returned (v : retval)
| Failed (f : failure).

Section Execution.

Variable rule : put_rule.
Variable creator_address : Address.

Definition dispatch (c : call) : avm retval :=
  let u64 (m : avm N) : avm retval := let* n := m in avm_ret (RUInt64 n) in
  match target c with
  | Create_batch b => u64 (create_batch b)
  | Approve_batch b => u64 (approve_batch b)
  | Get_batch_status b => u64 (get_batch_status b)
  | Assign_role account role =>
      u64 (assign_role rule creator_address (sender c) account role)
  | Create_batch_v2 b => u64 (create_batch_v2 rule (sender c) b)
  | Approve_batch_v2 b => u64 (approve_batch_v2 rule (sender c) b)
  | Certify_batch b =>
      u64 (certify_batch rule creator_address (sender c) (minted c) b)
  | Get_batch_status_v2 b => u64 (get_batch_status_v2 b)
  | Get_batch_asset b => u64 (get_batch_asset b)
  | Get_vendor_batches v =>
      let* s := get_vendor_batches v in avm_ret (RString s)
  | Get_role a => u64 (get_role creator_address a)
  end.

(** An application call as the ledger settles it.  The contract holds no code
    for this step: it is the ledger that treats the call as one transaction,
    commits the boxes and the log entries of a program that finishes, and
    rejects the transaction of a program that aborts, keeping the world it had
    before the call.  What the program itself did up to the point where it
    stopped is [leaves], below. *)
Definition app_call (w : world) (c : call) : world * result :=
  match dispatch c w with
  | Done v w' => (w', Returned v)
  | Abort f _ => (w, Failed f)
  end.

(** A sequence of calls, with the history of what each one answered. *)
Fixpoint run (w : world) (cs : list call) : world * list (call * result) :=
  match cs with
  | [] => (w, [])
  | c :: cs' =>
      let (w1, r) := app_call w c in
      let (w2, h) := run w1 cs' in
      (w2, (c, r) :: h)
  end.

(** The world a call's program leaves when it stops, whether it returned
    or aborted: every write it made up to that point is in it. *)
Definition leaves (w : world) (c : call) : world :=
  match dispatch c w with
  | Done _ w' => w'
  | Abort _ w' => w'
  end.

(** The same for a sequence of calls, each one starting in the world the
    previous one left. *)
Fixpoint bodies (w : world) (cs : list call) : world :=
  match cs with
  | [] => w
  | c :: cs' => bodies (leaves w c) cs'
  end.

End Execution.

(** The application right after deployment: no box, empty log. *)
Definition init_world : world := World ∅ [].

(** The worlds the application can be in. *)
Inductive reachable (rule : put_rule) (creator_address : Address) : world -> Prop :=
| reach_init : reachable rule creator_address init_world
| reach_call w c :
    reachable rule creator_address w ->
    reachable rule creator_address (fst (app_call rule creator_address w c)).

(** ** Reading the outcome in the words of the design document *)

(** The failure classes of the design document. *)
Inductive failure_class :=
| Unauthorized
| InvalidArgument
| AlreadyExists
| NotFound
| InvalidTransition
| MintingFailure
| OpcodeFailure
| ProgramError.

(** Each [assert] of the source belongs to one class, by what it checks. *)
Definition classify (f : failure) : failure_class :=
  match f with
  | AssertFailed msg =>
      if String.eqb msg "Only admin can assign roles" then Unauthorized
      else if String.eqb msg "Invalid role" then InvalidArgument
      else if String.eqb msg "Sender has no assigned role" then Unauthorized
      else if String.eqb msg "Only ROLE_VENDOR can create batches" then Unauthorized
      else if String.eqb msg "Batch already exists" then AlreadyExists
      else if String.eqb msg "Only ROLE_INSPECTOR can approve batches" then Unauthorized
      else if String.eqb msg "Batch does not exist" then NotFound
      else if String.eqb msg "Batch must be in CREATED state" then InvalidTransition
      else if String.eqb msg "Only admin or ROLE_INSPECTOR can certify" then Unauthorized
      else if String.eqb msg "Batch must be in APPROVED state" then InvalidTransition
      else OpcodeFailure
  | InnerTxnRejected => MintingFailure
  | BtoiTooLong | BoxPutLength => OpcodeFailure
  | AttributeError _ => ProgramError
  end.

(** The role recorded for an account, decoded. *)
Definition stored_role (w : world) (account : Address) : option N :=
  match boxes w !! role_key account with
  | Some v => btoi v
  | None => None
  end.

(** The state recorded for a batch, decoded. *)
Definition stored_state (w : world) (batch_id : Bytes) : option N :=
  match boxes w !! state_key batch_id with
  | Some v => btoi v
  | None => None
  end.

(** The batch identifiers of the successful [create_batch_v2] calls of
    [vendor] in a history, oldest first. *)
Fixpoint created_by (vendor : Address) (h : list (call * result)) : list Bytes :=
  match h with
  | [] => []
  | (c, r) :: h' =>
      match target c, r with
      | Create_batch_v2 b, Returned _ =>
          if bool_decide (sender c = vendor) then b :: created_by vendor h'
          else created_by vendor h'
      | _, _ => created_by vendor h'
      end
  end.

(** Whether a history contains a successful [create_batch_v2] of [batch_id]. *)
Fixpoint created_in (batch_id : Bytes) (h : list (call * result)) : bool :=
  match h with
  | [] => false
  | (c, r) :: h' =>
      match target c, r with
      | Create_batch_v2 b, Returned _ =>
          bool_decide (b = batch_id) || created_in batch_id h'
      | _, _ => created_in batch_id h'
      end
  end.

(** The items of a list separated by [sep]: what the repeated
    [existing + sep + batch_id] of [create_batch_v2] builds from the
    identifiers, one after the other. *)
Fixpoint join (sep : string) (l : list Bytes) : Bytes :=
  match l with
  | [] => ""
  | [x] => x
  | x :: rest => x +:+ sep +:+ join sep rest
  end.

(** ** A worked scenario

    The administrator gives account [A1] the Vendor role and account [A2]
    the Inspector role; [A1] creates batch [B-100], [A2] approves it and then
    certifies it, the ledger assigning asset 1001. *)
Definition scenario_calls : list call :=
  [ Call "ADMIN" None (Assign_role "A1" 1);
    Call "ADMIN" None (Assign_role "A2" 2);
    Call "A1" None (Create_batch_v2 "B-100");
    Call "A2" None (Approve_batch_v2 "B-100");
    Call "A2" (Some 1001) (Certify_batch "B-100") ].

(** The boxes as the programs of the first [n] calls of the scenario write
    them: roles after 2, the batch in state 0 after 3, in state 1 after 4, in
    state 2 with its asset after 5. *)
Definition scenario_world (n : nat) : world :=
  bodies KeepsLength "ADMIN" init_world (take n scenario_calls).

(** ** What the program of a call can leave behind *)

(** The methods that never write. *)
Definition quiet (m : method) : bool :=
  match m with
  | Assign_role _ _ | Create_batch_v2 _ | Approve_batch_v2 _
  | Certify_batch _ => false
  | _ => true
  end.

(** [body w c w']: the program of call [c], started in world [w], may stop
    in world [w'].  It stops where it started when a check fails before the
    first write; otherwise it has passed the checks of its method and made
    one or both of the method's writes.  The log is never touched. *)
Inductive body (creator_address : Address) : world -> call -> world -> Prop :=
| body_same w c :
    body creator_address w c w
| body_assign w s mt account role :
    s = creator_address ->
    role = 1 ∨ role = 2 ->
    body creator_address w (Call s mt (Assign_role account role))
      (World (<[role_key account := itob role]> (boxes w)) (logs w))
| body_create_state w s mt b :
    stored_role w s = Some 1 ->
    boxes w !! state_key b = None ->
    body creator_address w (Call s mt (Create_batch_v2 b))
      (World (<[state_key b := itob 0]> (boxes w)) (logs w))
| body_create w s mt b :
    stored_role w s = Some 1 ->
    boxes w !! state_key b = None ->
    body creator_address w (Call s mt (Create_batch_v2 b))
      (World (<[vendor_key s :=
                  match boxes w !! vendor_key s with
                  | Some e => e +:+ "|" +:+ b
                  | None => b
                  end]> (<[state_key b := itob 0]> (boxes w))) (logs w))
| body_approve w s mt b :
    stored_role w s = Some 2 ->
    stored_state w b = Some 0 ->
    body creator_address w (Call s mt (Approve_batch_v2 b))
      (World (<[state_key b := itob 1]> (boxes w)) (logs w))
| body_certify_state w s mt b :
    s = creator_address ∨ stored_role w s = Some 2 ->
    stored_state w b = Some 1 ->
    body creator_address w (Call s mt (Certify_batch b))
      (World (<[state_key b := itob 2]> (boxes w)) (logs w))
| body_certify w s asa_id b :
    s = creator_address ∨ stored_role w s = Some 2 ->
    stored_state w b = Some 1 ->
    body creator_address w (Call s (Some asa_id) (Certify_batch b))
      (World (<[asset_key b := itob asa_id]>
                (<[state_key b := itob 2]> (boxes w))) (logs w)).

(** ** Well-formed worlds *)

(** What every world the application can reach satisfies: role boxes hold
    the code of Vendor or Inspector, state boxes the code of one of the three
    states, and an asset box exists only for a certified batch and holds an
    encoded identifier. *)
Record world_ok (w : world) : Prop := {
  ok_role : ∀ a v, boxes w !! role_key a = Some v -> v = itob 1 ∨ v = itob 2;
  ok_state : ∀ b v,
    boxes w !! state_key b = Some v -> v = itob 0 ∨ v = itob 1 ∨ v = itob 2;
  ok_asset : ∀ b v,
    boxes w !! asset_key b = Some v ->
    boxes w !! state_key b = Some (itob 2) ∧ ∃ asa_id, v = itob asa_id
}.


(** ** The dashboard ([frontend/app.py]) *)






(** [s.split(sep)] for a separator of one character: the pieces of [s]
    between the occurrences of [sep], empty pieces included; never the empty
    list. *)
Fixpoint split (sep : ascii) (s : string) : list string :=
  match s with
  | "" => [""]
  | String c r =>
      if Ascii.eqb c sep then "" :: split sep r
      else match split sep r with
           | [] => [String c ""]
           | piece :: pieces => String c piece :: pieces
           end
  end.

(** The [batches] of the [vendor] page:
    [raw = abi_return or ""; batches = [b for b in raw.split("|") if b]]. *)
Definition vendor_page_batches (abi_return : option string) : list string :=
  let raw := match abi_return with
             | Some s => if String.eqb s "" then "" else s
             | None => ""
             end in
  List.filter (fun b => negb (String.eqb b "")) (split "|" raw).

(** ** Plain identifiers *)

(** Whether the character [sep] occurs in [s]. *)
Fixpoint contains (sep : ascii) (s : string) : bool :=
  match s with
  | "" => false
  | String c r => Ascii.eqb c sep || contains sep r
  end.

(** An identifier the vendor page can show: not empty, no ["|"] in it. *)
Definition plain_id (b : Bytes) : bool :=
  negb (String.eqb b "") && negb (contains "|" b).

(** * Properties *)

(** ** Bytes and integers *)

Lemma string_length_app (s1 s2 : string) :
  String.length (s1 +:+ s2) = (String.length s1 + String.length s2)%nat.
Proof. induction s1 as [|c r IH]; simpl; [done|]. by rewrite IH. Qed.

Lemma be_value_app b1 b2 acc :
  be_value acc (b1 +:+ b2) = be_value (be_value acc b1) b2.
Proof.
  revert acc. induction b1 as [|c r IH]; intros acc; simpl; [done|]. apply IH.
Qed.

Lemma be_bytes_length len n : String.length (be_bytes len n) = len.
Proof.
  revert n. induction len as [|k IH]; intros n; simpl; [done|].
  rewrite string_length_app, IH. simpl. lia.
Qed.

Lemma be_value_be_bytes len n :
  be_value 0 (be_bytes len n) = n mod 256 ^ N.of_nat len.
Proof.
  revert n. induction len as [|k IH]; intros n.
  - simpl. by rewrite N.mod_1_r.
  - cbn [be_bytes]. rewrite be_value_app, IH. cbn [be_value].
    rewrite N_ascii_embedding by (apply N.mod_lt; lia).
    rewrite Nat2N.inj_succ, N.pow_succ_r'.
    rewrite N.Div0.mod_mul_r. lia.
Qed.

Lemma itob_length n : String.length (itob n) = 8%nat.
Proof. apply be_bytes_length. Qed.

(** [btoi] undoes [itob] on every [UInt64]. *)
Lemma btoi_itob n : n < UInt64_max -> btoi (itob n) = Some n.
Proof.
  intros Hn. unfold btoi, itob. rewrite be_bytes_length, be_value_be_bytes.
  change (8 <=? 8)%nat with true. cbv iota.
  f_equal. apply N.mod_small. exact Hn.
Qed.

(** [btoi] never fails on the image of [itob]. *)
Lemma btoi_itob_mod n : btoi (itob n) = Some (n mod UInt64_max).
Proof.
  unfold btoi, itob. rewrite be_bytes_length, be_value_be_bytes. done.
Qed.

(** ** Keys of different kinds never meet *)

Lemma role_key_inj a a' : role_key a = role_key a' -> a = a'.
Proof. unfold role_key. intros H. by simplify_eq/=. Qed.

Lemma state_key_inj b b' : state_key b = state_key b' -> b = b'.
Proof. unfold state_key. intros H. by simplify_eq/=. Qed.

Lemma asset_key_inj b b' : asset_key b = asset_key b' -> b = b'.
Proof. unfold asset_key. intros H. by simplify_eq/=. Qed.

Lemma vendor_key_inj v v' : vendor_key v = vendor_key v' -> v = v'.
Proof. unfold vendor_key. intros H. by simplify_eq/=. Qed.

Lemma role_state_ne a b : role_key a ≠ state_key b.
Proof. discriminate. Qed.
Lemma role_asset_ne a b : role_key a ≠ asset_key b.
Proof. discriminate. Qed.
Lemma role_vendor_ne a v : role_key a ≠ vendor_key v.
Proof. discriminate. Qed.
Lemma state_asset_ne b b' : state_key b ≠ asset_key b'.
Proof. discriminate. Qed.
Lemma state_vendor_ne b v : state_key b ≠ vendor_key v.
Proof. discriminate. Qed.
Lemma asset_vendor_ne b v : asset_key b ≠ vendor_key v.
Proof. discriminate. Qed.

(** Decides a goal [k1 ≠ k2] between two box keys. *)
Ltac key_neq :=
  solve
    [ discriminate
    | apply role_state_ne | apply role_asset_ne | apply role_vendor_ne
    | apply state_asset_ne | apply state_vendor_ne | apply asset_vendor_ne
    | apply not_eq_sym;
      first [ apply role_state_ne | apply role_asset_ne | apply role_vendor_ne
            | apply state_asset_ne | apply state_vendor_ne
            | apply asset_vendor_ne ]
    | intros ?%role_key_inj; congruence
    | intros ?%state_key_inj; congruence
    | intros ?%asset_key_inj; congruence
    | intros ?%vendor_key_inj; congruence ].

Ltac avm_unfold :=
  unfold avm_bind, avm_ret, assert_, op_btoi, Box_get, Box_put, emit,
    Bytes_hex, Bytes_decode, AssetConfig_submit in *.

(** ** Where the program of each method can stop *)

Ltac eqb_to_eq :=
  repeat match goal with
    | H : (_ =? _) = true |- _ => apply N.eqb_eq in H
    | H : bool_decide _ = true |- _ => apply bool_decide_eq_true in H
    | H : negb (bool_decide _) = false |- _ =>
        apply negb_false_iff, bool_decide_eq_true in H
    | H : _ || _ = true |- _ => apply orb_true_iff in H; rewrite !N.eqb_eq in H
    end.

Section Methods.

Variable rule : put_rule.
Variable creator_address : Address.

(** The four state-changing methods never return. *)
Lemma assign_role_stops s account role w :
  ∃ f w', assign_role rule creator_address s account role w = Abort f w'.
Proof.
  unfold assign_role. avm_unfold.
  repeat (case_match; simplify_eq/=; try done); by eauto.
Qed.

Lemma create_batch_v2_stops s b w :
  ∃ f w', create_batch_v2 rule s b w = Abort f w'.
Proof.
  unfold create_batch_v2. avm_unfold.
  repeat (case_match; simplify_eq/=; try done); by eauto.
Qed.

Lemma approve_batch_v2_stops s b w :
  ∃ f w', approve_batch_v2 rule s b w = Abort f w'.
Proof.
  unfold approve_batch_v2. avm_unfold.
  repeat (case_match; simplify_eq/=; try done); by eauto.
Qed.

Lemma certify_batch_stops s mt b w :
  ∃ f w', certify_batch rule creator_address s mt b w = Abort f w'.
Proof.
  unfold certify_batch. avm_unfold.
  repeat (case_match; simplify_eq/=; try done); by eauto.
Qed.

(** The reads stop where they started. *)
Lemma get_batch_status_v2_world b w :
  match get_batch_status_v2 b w with Done _ x | Abort _ x => x = w end.
Proof.
  unfold get_batch_status_v2. avm_unfold.
  by repeat (case_match; simplify_eq/=; try done).
Qed.

Lemma get_batch_asset_world b w :
  match get_batch_asset b w with Done _ x | Abort _ x => x = w end.
Proof.
  unfold get_batch_asset. avm_unfold.
  by repeat (case_match; simplify_eq/=; try done).
Qed.

Lemma get_vendor_batches_world v w :
  match get_vendor_batches v w with Done _ x | Abort _ x => x = w end.
Proof.
  unfold get_vendor_batches. avm_unfold.
  by repeat (case_match; simplify_eq/=; try done).
Qed.

Lemma get_role_world a w :
  match get_role creator_address a w with Done _ x | Abort _ x => x = w end.
Proof.
  unfold get_role. avm_unfold.
  by repeat (case_match; simplify_eq/=; try done).
Qed.

End Methods.

(** ** Every program stops in a world its method allows *)

Section Bodies.

Variable rule : put_rule.
Variable creator_address : Address.

Lemma body_create_eq w s mt b new_val :
  stored_role w s = Some 1 ->
  boxes w !! state_key b = None ->
  new_val = match boxes w !! vendor_key s with
            | Some e => e +:+ "|" +:+ b
            | None => b
            end ->
  body creator_address w (Call s mt (Create_batch_v2 b))
    (World (<[vendor_key s := new_val]> (<[state_key b := itob 0]> (boxes w)))
       (logs w)).
Proof. intros ? ? ->. by apply body_create. Qed.

Ltac role_facts :=
  unfold stored_role, stored_state, role_key, state_key, vendor_key,
    asset_key in *;
  rewrite ?lookup_insert_ne in * by discriminate;
  repeat match goal with
    | Hl : ?m !! ?k = _ |- context [?m !! ?k] => rewrite Hl
    end.

Ltac body_leaf :=
  eqb_to_eq; subst;
  first
    [ apply body_same
    | apply body_assign; by auto
    | apply body_create_state; by role_facts
    | apply body_create_eq; by role_facts
    | apply body_approve; by role_facts
    | apply body_certify_state; [by auto; right; role_facts | by role_facts]
    | apply body_certify; [by auto; right; role_facts | by role_facts] ].

Lemma assign_role_body s mt account role w :
  body creator_address w (Call s mt (Assign_role account role))
    match assign_role rule creator_address s account role w with
    | Done _ w' | Abort _ w' => w'
    end.
Proof.
  unfold assign_role. avm_unfold.
  repeat (case_match; simplify_eq/=; try done); body_leaf.
Qed.

Lemma create_batch_v2_body s mt b w :
  body creator_address w (Call s mt (Create_batch_v2 b))
    match create_batch_v2 rule s b w with Done _ w' | Abort _ w' => w' end.
Proof.
  unfold create_batch_v2. avm_unfold.
  repeat (case_match; simplify_eq/=; try done); body_leaf.
Qed.

Lemma approve_batch_v2_body s mt b w :
  body creator_address w (Call s mt (Approve_batch_v2 b))
    match approve_batch_v2 rule s b w with Done _ w' | Abort _ w' => w' end.
Proof.
  unfold approve_batch_v2. avm_unfold.
  repeat (case_match; simplify_eq/=; try done); body_leaf.
Qed.

Lemma certify_batch_body s mt b w :
  body creator_address w (Call s mt (Certify_batch b))
    match certify_batch rule creator_address s mt b w with
    | Done _ w' | Abort _ w' => w'
    end.
Proof.
  unfold certify_batch. avm_unfold.
  repeat (case_match; simplify_eq/=; try done); body_leaf.
Qed.

Lemma leaves_body w c :
  body creator_address w c (leaves rule creator_address w c).
Proof.
  unfold leaves, dispatch. destruct c as [s mt m].
  destruct m; cbn [target sender minted]; unfold avm_bind at 1.
  - apply body_same.
  - apply body_same.
  - apply body_same.
  - pose proof (assign_role_body s mt account role w) as H.
    by destruct (assign_role _ _ _ _ _ w).
  - pose proof (create_batch_v2_body s mt batch_id w) as H.
    by destruct (create_batch_v2 _ _ _ w).
  - pose proof (approve_batch_v2_body s mt batch_id w) as H.
    by destruct (approve_batch_v2 _ _ _ w).
  - pose proof (certify_batch_body s mt batch_id w) as H.
    by destruct (certify_batch _ _ _ _ _ w).
  - pose proof (get_batch_status_v2_world batch_id w) as Ho.
    destruct (get_batch_status_v2 batch_id w); subst; apply body_same.
  - pose proof (get_batch_asset_world batch_id w) as Ho.
    destruct (get_batch_asset batch_id w); subst; apply body_same.
  - pose proof (get_vendor_batches_world vendor w) as Ho.
    destruct (get_vendor_batches vendor w); subst; apply body_same.
  - pose proof (get_role_world creator_address account w) as Ho.
    destruct (get_role creator_address account w); subst; apply body_same.
Qed.

(** A call that returns is a read or an original method, and commits the
    world it was made in. *)
Lemma app_call_Returned w c w' v :
  app_call rule creator_address w c = (w', Returned v) ->
  quiet (target c) = true ∧ w' = w.
Proof.
  unfold app_call, dispatch. destruct c as [s mt m].
  destruct m; cbn [target sender minted quiet]; unfold avm_bind at 1.
  - cbv. by intros [= <- <-].
  - cbv. by intros [= <- <-].
  - cbv. by intros [= <- <-].
  - by destruct (assign_role_stops rule creator_address s account role w)
      as (f & x & ->).
  - by destruct (create_batch_v2_stops rule s batch_id w) as (f & x & ->).
  - by destruct (approve_batch_v2_stops rule s batch_id w) as (f & x & ->).
  - by destruct (certify_batch_stops rule creator_address s mt batch_id w)
      as (f & x & ->).
  - pose proof (get_batch_status_v2_world batch_id w) as Ho.
    destruct (get_batch_status_v2 batch_id w); [|done].
    cbv [avm_ret]. by intros [= <- <-].
  - pose proof (get_batch_asset_world batch_id w) as Ho.
    destruct (get_batch_asset batch_id w); [|done].
    cbv [avm_ret]. by intros [= <- <-].
  - pose proof (get_vendor_batches_world vendor w) as Ho.
    destruct (get_vendor_batches vendor w); [|done].
    cbv [avm_ret]. by intros [= <- <-].
  - pose proof (get_role_world creator_address account w) as Ho.
    destruct (get_role creator_address account w); [|done].
    cbv [avm_ret]. by intros [= <- <-].
Qed.

(** A rejected call leaves the world as it was. *)
Lemma app_call_Failed w c w' f :
  app_call rule creator_address w c = (w', Failed f) -> w' = w.
Proof.
  unfold app_call. destruct (dispatch _ _ c w); congruence.
Qed.

(** No call commits a world other than the one it was made in. *)
Lemma app_call_same w c : fst (app_call rule creator_address w c) = w.
Proof.
  destruct (app_call rule creator_address w c) as [w' [v|f]] eqn:E; cbn.
  - by apply app_call_Returned in E as [_ ->].
  - by apply app_call_Failed in E.
Qed.

Lemma run_same cs w : fst (run rule creator_address w cs) = w.
Proof.
  revert w. induction cs as [|c cs IH]; intros w; cbn [run]; [done|].
  pose proof (app_call_same w c) as Hc.
  destruct (app_call rule creator_address w c) as [w1 r]. cbn in Hc. subst w1.
  specialize (IH w). by destruct (run rule creator_address w cs).
Qed.

Lemma reachable_init w : reachable rule creator_address w -> w = init_world.
Proof. induction 1 as [|w c _ ->]; [done|]. apply app_call_same. Qed.

Lemma run_reachable w cs :
  reachable rule creator_address w ->
  reachable rule creator_address (fst (run rule creator_address w cs)).
Proof. by rewrite run_same. Qed.

End Bodies.

(** ** How each kind of box can move while a program runs *)

Section Frames.

Variable creator_address : Address.

Ltac lookup_cases :=
  repeat first
    [ rewrite lookup_insert_ne by key_neq
    | rewrite lookup_insert_eq ].

Lemma body_logs w c w' : body creator_address w c w' -> logs w' = logs w.
Proof. by destruct 1. Qed.

Lemma body_role w c w' a :
  body creator_address w c w' ->
  boxes w' !! role_key a = boxes w !! role_key a ∨
  ∃ role, target c = Assign_role a role ∧ sender c = creator_address ∧
          (role = 1 ∨ role = 2) ∧
          boxes w' !! role_key a = Some (itob role).
Proof.
  destruct 1; cbn [boxes target sender]; lookup_cases; auto.
  destruct (decide (account = a)) as [->|Hne].
  - right. exists role. by lookup_cases.
  - left. by lookup_cases.
Qed.

Lemma body_state w c w' b :
  body creator_address w c w' ->
  boxes w' !! state_key b = boxes w !! state_key b ∨
  (target c = Create_batch_v2 b ∧
   stored_role w (sender c) = Some 1 ∧
   boxes w !! state_key b = None ∧
   boxes w' !! state_key b = Some (itob 0)) ∨
  (target c = Approve_batch_v2 b ∧
   stored_role w (sender c) = Some 2 ∧
   stored_state w b = Some 0 ∧
   boxes w' !! state_key b = Some (itob 1)) ∨
  (target c = Certify_batch b ∧
   (sender c = creator_address ∨ stored_role w (sender c) = Some 2) ∧
   stored_state w b = Some 1 ∧
   boxes w' !! state_key b = Some (itob 2)).
Proof.
  destruct 1 as [| | ? ? ? b0 | ? ? ? b0 | ? ? ? b0 | ? ? ? b0 | ? ? ? b0];
    cbn [boxes target sender]; lookup_cases; auto.
  all: destruct (decide (b0 = b)) as [->|Hne];
    [ right | left; by lookup_cases ].
  - left. by lookup_cases.
  - left. by lookup_cases.
  - right; left. by lookup_cases.
  - right; right. by lookup_cases.
  - right; right. by lookup_cases.
Qed.

Lemma body_asset w c w' b :
  body creator_address w c w' ->
  boxes w' !! asset_key b = boxes w !! asset_key b ∨
  (target c = Certify_batch b ∧
   (sender c = creator_address ∨ stored_role w (sender c) = Some 2) ∧
   stored_state w b = Some 1 ∧
   boxes w' !! state_key b = Some (itob 2) ∧
   ∃ asa_id, minted c = Some asa_id ∧
             boxes w' !! asset_key b = Some (itob asa_id)).
Proof.
  destruct 1 as [| | | | | | ? ? asa_id b0];
    cbn [boxes target sender minted]; lookup_cases; auto.
  destruct (decide (b0 = b)) as [->|Hne]; [ right | left; by lookup_cases ].
  repeat split; [done | done | by lookup_cases |].
  exists asa_id. by lookup_cases.
Qed.

Lemma body_vendor w c w' vendor :
  body creator_address w c w' ->
  boxes w' !! vendor_key vendor = boxes w !! vendor_key vendor ∨
  ∃ b, target c = Create_batch_v2 b ∧ sender c = vendor ∧
       stored_role w vendor = Some 1 ∧ boxes w !! state_key b = None ∧
       boxes w' !! vendor_key vendor =
         Some (match boxes w !! vendor_key vendor with
               | Some e => e +:+ "|" +:+ b
               | None => b
               end).
Proof.
  destruct 1 as [| | | ? s ? b0 | | |];
    cbn [boxes target sender]; lookup_cases; auto.
  destruct (decide (s = vendor)) as [->|Hne]; [ right | left; by lookup_cases ].
  exists b0. by lookup_cases.
Qed.

End Frames.

(** ** Well-formed worlds stay well formed *)

Lemma btoi_itob_0 : btoi (itob 0) = Some 0.
Proof. reflexivity. Qed.
Lemma btoi_itob_1 : btoi (itob 1) = Some 1.
Proof. reflexivity. Qed.
Lemma btoi_itob_2 : btoi (itob 2) = Some 2.
Proof. reflexivity. Qed.

Lemma init_world_ok : world_ok init_world.
Proof. split; intros ? ?; cbn; by rewrite lookup_empty. Qed.

(** In a well-formed world the stored role is absent, Vendor or
    Inspector. *)
Lemma world_ok_stored_role w a :
  world_ok w ->
  (boxes w !! role_key a = None ∧ stored_role w a = None) ∨
  (boxes w !! role_key a = Some (itob 1) ∧ stored_role w a = Some 1) ∨
  (boxes w !! role_key a = Some (itob 2) ∧ stored_role w a = Some 2).
Proof.
  intros [Hr _ _]. unfold stored_role.
  destruct (boxes w !! role_key a) as [x|] eqn:E; [|by left].
  destruct (Hr a x E) as [->| ->]; auto.
Qed.

(** In a well-formed world the stored state is absent or one of the three
    lifecycle states. *)
Lemma world_ok_stored_state w b :
  world_ok w ->
  (boxes w !! state_key b = None ∧ stored_state w b = None) ∨
  (boxes w !! state_key b = Some (itob 0) ∧ stored_state w b = Some 0) ∨
  (boxes w !! state_key b = Some (itob 1) ∧ stored_state w b = Some 1) ∨
  (boxes w !! state_key b = Some (itob 2) ∧ stored_state w b = Some 2).
Proof.
  intros [_ Hs _]. unfold stored_state.
  destruct (boxes w !! state_key b) as [x|] eqn:E; [|by left].
  destruct (Hs b x E) as [->|[->| ->]]; auto.
Qed.

Section Invariant.

Variable rule : put_rule.
Variable creator_address : Address.

Lemma body_world_ok w c w' :
  body creator_address w c w' -> world_ok w -> world_ok w'.
Proof.
  intros Hb [Hr Hs Ha]. split.
  - intros a x Hx.
    destruct (body_role _ _ _ _ a Hb) as [E|(role & _ & _ & Hrole & E)].
    + rewrite E in Hx. eauto.
    + rewrite E in Hx. destruct Hrole; simplify_eq; auto.
  - intros b x Hx.
    destruct (body_state _ _ _ _ b Hb)
      as [E|[(_ & _ & _ & E)|[(_ & _ & _ & E)|(_ & _ & _ & E)]]];
      rewrite E in Hx; simplify_eq; eauto.
  - intros b x Hx.
    destruct (body_asset _ _ _ _ b Hb)
      as [E|(_ & _ & _ & Hst & id & _ & E)].
    + rewrite E in Hx. destruct (Ha b x Hx) as [Hst Hid].
      split; [|done].
      destruct (body_state _ _ _ _ b Hb)
        as [E'|[(_ & _ & Hn & _)|[(_ & _ & Hn & _)|(_ & _ & Hn & _)]]].
      * by rewrite E'.
      * congruence.
      * unfold stored_state in Hn. rewrite Hst in Hn. done.
      * unfold stored_state in Hn. rewrite Hst in Hn. done.
    + rewrite E in Hx. simplify_eq. eauto.
Qed.

Lemma leaves_world_ok w c :
  world_ok w -> world_ok (leaves rule creator_address w c).
Proof. apply body_world_ok with (c := c), leaves_body. Qed.

Lemma bodies_world_ok cs w :
  world_ok w -> world_ok (bodies rule creator_address w cs).
Proof.
  revert w. induction cs as [|c cs IH]; intros w Hok; cbn [bodies]; [done|].
  by apply IH, leaves_world_ok.
Qed.

Lemma reachable_world_ok w :
  reachable rule creator_address w -> world_ok w.
Proof. intros ->%reachable_init. apply init_world_ok. Qed.

End Invariant.

Lemma scenario_world_ok n : world_ok (scenario_world n).
Proof. apply bodies_world_ok, init_world_ok. Qed.

(** ** Running a method forward *)

(** Evaluates a method body along the lookups recorded in the context. *)
Ltac method_eval :=
  unfold stored_role, stored_state, role_key, state_key, asset_key,
    vendor_key in *;
  avm_unfold;
  repeat first
    [ match goal with
      | H : ?m !! ?k = _ |- context [?m !! ?k] => rewrite H
      | H : btoi ?x = _ |- context [btoi ?x] => rewrite H
      | |- context [<[?k := _]> _ !! ?k] => rewrite lookup_insert_eq
      | |- context [<[_ := _]> _ !! _] =>
          rewrite lookup_insert_ne by discriminate
      | H : ?x ≠ ?y |- context [bool_decide (?x = ?y)] =>
          rewrite (bool_decide_eq_false_2 _ H)
      | |- context [bool_decide (?x = ?x)] =>
          rewrite (bool_decide_eq_true_2 (x = x) eq_refl)
      | H : (?x =? ?y) = _ |- context [?x =? ?y] => rewrite H
      end
    | rewrite N.eqb_refl
    | progress cbn [boxes logs negb andb orb] ].

Section Forward.

Variable rule : put_rule.
Variable creator_address : Address.

Lemma put_allowed_fresh new : put_allowed rule None new = true.
Proof. by destruct rule. Qed.

Lemma put_allowed_itob n m : put_allowed rule (Some (itob n)) (itob m) = true.
Proof. destruct rule; [done|]. unfold put_allowed. by rewrite !itob_length. Qed.

Lemma assign_role_not_admin s account role w :
  s ≠ creator_address ->
  assign_role rule creator_address s account role w =
    Abort (AssertFailed "Only admin can assign roles") w.
Proof. intros Hs. unfold assign_role. by method_eval. Qed.

Lemma assign_role_invalid account role w :
  role ≠ 1 -> role ≠ 2 ->
  assign_role rule creator_address creator_address account role w =
    Abort (AssertFailed "Invalid role") w.
Proof.
  intros H1 H2. apply N.eqb_neq in H1, H2.
  unfold assign_role. by method_eval.
Qed.

(** Past its checks and its write, [assign_role] stops at the audit line. *)
Lemma assign_role_audit account role w :
  role = 1 ∨ role = 2 ->
  put_allowed rule (boxes w !! role_key account) (itob role) = true ->
  assign_role rule creator_address creator_address account role w =
    Abort (AttributeError "hex")
      (World (<[role_key account := itob role]> (boxes w)) (logs w)).
Proof.
  intros Hr Hp. unfold assign_role. method_eval.
  replace ((role =? 1) || (role =? 2)) with true
    by (by destruct Hr as [-> | ->]).
  rewrite Hp. by method_eval.
Qed.

Lemma create_batch_v2_no_role s b w :
  boxes w !! role_key s = None ->
  create_batch_v2 rule s b w =
    Abort (AssertFailed "Sender has no assigned role") w.
Proof. intros H. unfold create_batch_v2. by method_eval. Qed.

Lemma create_batch_v2_not_vendor s b w r :
  stored_role w s = Some r -> r ≠ 1 ->
  create_batch_v2 rule s b w =
    Abort (AssertFailed "Only ROLE_VENDOR can create batches") w.
Proof.
  intros H Hr. apply N.eqb_neq in Hr. unfold create_batch_v2. method_eval.
  destruct (boxes w !! _) as [x|]; [|done]. by method_eval.
Qed.

Lemma create_batch_v2_exists s b w x :
  stored_role w s = Some 1 -> boxes w !! state_key b = Some x ->
  create_batch_v2 rule s b w = Abort (AssertFailed "Batch already exists") w.
Proof.
  intros H Hr. unfold create_batch_v2. method_eval.
  destruct (boxes w !! ("role:" +:+ s)) as [y|]; [|done]. by method_eval.
Qed.

(** Past its checks and its two writes, [create_batch_v2] stops at the
    audit line. *)
Lemma create_batch_v2_audit s b w :
  stored_role w s = Some 1 -> boxes w !! state_key b = None ->
  put_allowed rule (boxes w !! vendor_key s)
    (match boxes w !! vendor_key s with
     | Some e => e +:+ "|" +:+ b
     | None => b
     end) = true ->
  create_batch_v2 rule s b w =
    Abort (AttributeError "hex")
      (World
         (<[vendor_key s :=
              match boxes w !! vendor_key s with
              | Some e => e +:+ "|" +:+ b
              | None => b
              end]> (<[state_key b := itob 0]> (boxes w)))
         (logs w)).
Proof.
  intros H Hr Hp. unfold create_batch_v2. method_eval.
  destruct (boxes w !! ("role:" +:+ s)) as [y|]; [|done]. method_eval.
  rewrite put_allowed_fresh. method_eval.
  destruct (boxes w !! ("vendor:" +:+ s)) as [e|] eqn:Ev;
    method_eval; rewrite Hp; by method_eval.
Qed.

(** When the platform refuses the second write, the method aborts after it
    has already written the state box. *)
Lemma create_batch_v2_put_refused s b w :
  stored_role w s = Some 1 -> boxes w !! state_key b = None ->
  put_allowed rule (boxes w !! vendor_key s)
    (match boxes w !! vendor_key s with
     | Some e => e +:+ "|" +:+ b
     | None => b
     end) = false ->
  create_batch_v2 rule s b w =
    Abort BoxPutLength (World (<[state_key b := itob 0]> (boxes w)) (logs w)).
Proof.
  intros H Hr Hp. unfold create_batch_v2. method_eval.
  destruct (boxes w !! ("role:" +:+ s)) as [y|]; [|done]. method_eval.
  rewrite put_allowed_fresh. method_eval.
  destruct (boxes w !! ("vendor:" +:+ s)) as [e|] eqn:Ev;
    method_eval; rewrite Hp; by method_eval.
Qed.

Lemma approve_batch_v2_no_role s b w :
  boxes w !! role_key s = None ->
  approve_batch_v2 rule s b w =
    Abort (AssertFailed "Sender has no assigned role") w.
Proof. intros H. unfold approve_batch_v2. by method_eval. Qed.

Lemma approve_batch_v2_not_inspector s b w r :
  stored_role w s = Some r -> r ≠ 2 ->
  approve_batch_v2 rule s b w =
    Abort (AssertFailed "Only ROLE_INSPECTOR can approve batches") w.
Proof.
  intros H Hr. apply N.eqb_neq in Hr. unfold approve_batch_v2. method_eval.
  destruct (boxes w !! _) as [x|]; [|done]. by method_eval.
Qed.

Lemma approve_batch_v2_not_found s b w :
  stored_role w s = Some 2 -> boxes w !! state_key b = None ->
  approve_batch_v2 rule s b w = Abort (AssertFailed "Batch does not exist") w.
Proof.
  intros H Hb. unfold approve_batch_v2. method_eval.
  destruct (boxes w !! ("role:" +:+ s)) as [y|]; [|done]. by method_eval.
Qed.

Lemma approve_batch_v2_wrong_state s b w st :
  stored_role w s = Some 2 -> stored_state w b = Some st -> st ≠ 0 ->
  approve_batch_v2 rule s b w =
    Abort (AssertFailed "Batch must be in CREATED state") w.
Proof.
  intros H Hb Hst. apply N.eqb_neq in Hst. unfold approve_batch_v2.
  method_eval.
  destruct (boxes w !! ("role:" +:+ s)) as [y|]; [|done]. method_eval.
  destruct (boxes w !! ("batch:" +:+ b)) as [x|]; [|done]. by method_eval.
Qed.

Lemma approve_batch_v2_audit s b w :
  stored_role w s = Some 2 -> stored_state w b = Some 0 ->
  put_allowed rule (boxes w !! state_key b) (itob 1) = true ->
  approve_batch_v2 rule s b w =
    Abort (AttributeError "hex")
      (World (<[state_key b := itob 1]> (boxes w)) (logs w)).
Proof.
  intros H Hb Hp. unfold approve_batch_v2. method_eval.
  destruct (boxes w !! ("role:" +:+ s)) as [y|]; [|done]. method_eval.
  destruct (boxes w !! ("batch:" +:+ b)) as [x|] eqn:Ex; [|done].
  method_eval. rewrite Hp. by method_eval.
Qed.

Lemma certify_batch_no_role s mt b w :
  s ≠ creator_address -> boxes w !! role_key s = None ->
  certify_batch rule creator_address s mt b w =
    Abort (AssertFailed "Sender has no assigned role") w.
Proof. intros Hs H. unfold certify_batch. by method_eval. Qed.

Lemma certify_batch_not_inspector s mt b w r :
  s ≠ creator_address -> stored_role w s = Some r -> r ≠ 2 ->
  certify_batch rule creator_address s mt b w =
    Abort (AssertFailed "Only admin or ROLE_INSPECTOR can certify") w.
Proof.
  intros Hs H Hr. apply N.eqb_neq in Hr. unfold certify_batch. method_eval.
  destruct (boxes w !! _) as [x|]; [|done]. by method_eval.
Qed.

(** The role check of [certify_batch] lets the creator and the inspectors
    through, with the world untouched. *)
Lemma certify_batch_gate s w :
  s = creator_address ∨ stored_role w s = Some 2 ->
  (if negb (bool_decide (s = creator_address)) then
     let* (role_val, role_exists) := Box_get ("role:" +:+ s) in
     let* _ := assert_ role_exists "Sender has no assigned role" in
     let* r := op_btoi role_val in
     assert_ (r =? 2) "Only admin or ROLE_INSPECTOR can certify"
   else avm_ret tt) w = Done tt w.
Proof.
  intros Hs. destruct (decide (s = creator_address)) as [->|Hne].
  - by method_eval.
  - destruct Hs as [?|Hs]; [done|]. method_eval.
    destruct (boxes w !! _) as [x|]; [|done]. by method_eval.
Qed.

Lemma certify_batch_not_found s mt b w :
  s = creator_address ∨ stored_role w s = Some 2 ->
  boxes w !! state_key b = None ->
  certify_batch rule creator_address s mt b w =
    Abort (AssertFailed "Batch does not exist") w.
Proof.
  intros Hs Hb. unfold certify_batch. unfold avm_bind at 1.
  rewrite (certify_batch_gate _ _ Hs). by method_eval.
Qed.

Lemma certify_batch_wrong_state s mt b w st :
  s = creator_address ∨ stored_role w s = Some 2 ->
  stored_state w b = Some st -> st ≠ 1 ->
  certify_batch rule creator_address s mt b w =
    Abort (AssertFailed "Batch must be in APPROVED state") w.
Proof.
  intros Hs Hb Hst. apply N.eqb_neq in Hst.
  unfold certify_batch. unfold avm_bind at 1.
  rewrite (certify_batch_gate _ _ Hs). method_eval.
  destruct (boxes w !! ("batch:" +:+ b)) as [x|]; [|done]. by method_eval.
Qed.

(** When the ledger rejects the inner transaction, the method aborts after
    it has already written state 2 into the batch box. *)
Lemma certify_batch_mint_rejected s b w :
  s = creator_address ∨ stored_role w s = Some 2 ->
  stored_state w b = Some 1 ->
  put_allowed rule (boxes w !! state_key b) (itob 2) = true ->
  certify_batch rule creator_address s None b w =
    Abort InnerTxnRejected
      (World (<[state_key b := itob 2]> (boxes w)) (logs w)).
Proof.
  intros Hs Hb Hp. unfold certify_batch. unfold avm_bind at 1.
  rewrite (certify_batch_gate _ _ Hs). method_eval.
  destruct (boxes w !! ("batch:" +:+ b)) as [x|] eqn:Ex; [|done].
  method_eval. rewrite Hp. by method_eval.
Qed.

Lemma certify_batch_audit s asa_id b w :
  s = creator_address ∨ stored_role w s = Some 2 ->
  stored_state w b = Some 1 ->
  put_allowed rule (boxes w !! state_key b) (itob 2) = true ->
  put_allowed rule (boxes w !! asset_key b) (itob asa_id) = true ->
  certify_batch rule creator_address s (Some asa_id) b w =
    Abort (AttributeError "hex")
      (World (<[asset_key b := itob asa_id]>
                (<[state_key b := itob 2]> (boxes w))) (logs w)).
Proof.
  intros Hs Hb Hp Hq. unfold certify_batch. unfold avm_bind at 1.
  rewrite (certify_batch_gate _ _ Hs). method_eval.
  destruct (boxes w !! ("batch:" +:+ b)) as [x|] eqn:Ex; [|done].
  method_eval. rewrite Hp. method_eval. rewrite Hq. by method_eval.
Qed.

(** *** From methods to application calls *)

Lemma app_call_assign_role w s mt account role :
  app_call rule creator_address w (Call s mt (Assign_role account role)) =
  match assign_role rule creator_address s account role w with
  | Done n w' => (w', Returned (RUInt64 n))
  | Abort f _ => (w, Failed f)
  end.
Proof.
  unfold app_call, dispatch, avm_bind, avm_ret; cbn [target sender minted].
  by destruct (assign_role _ _ _ _ _ w).
Qed.

Lemma app_call_create_batch_v2 w s mt b :
  app_call rule creator_address w (Call s mt (Create_batch_v2 b)) =
  match create_batch_v2 rule s b w with
  | Done n w' => (w', Returned (RUInt64 n))
  | Abort f _ => (w, Failed f)
  end.
Proof.
  unfold app_call, dispatch, avm_bind, avm_ret; cbn [target sender minted].
  by destruct (create_batch_v2 _ _ _ w).
Qed.

Lemma app_call_approve_batch_v2 w s mt b :
  app_call rule creator_address w (Call s mt (Approve_batch_v2 b)) =
  match approve_batch_v2 rule s b w with
  | Done n w' => (w', Returned (RUInt64 n))
  | Abort f _ => (w, Failed f)
  end.
Proof.
  unfold app_call, dispatch, avm_bind, avm_ret; cbn [target sender minted].
  by destruct (approve_batch_v2 _ _ _ w).
Qed.

Lemma app_call_certify_batch w s mt b :
  app_call rule creator_address w (Call s mt (Certify_batch b)) =
  match certify_batch rule creator_address s mt b w with
  | Done n w' => (w', Returned (RUInt64 n))
  | Abort f _ => (w, Failed f)
  end.
Proof.
  unfold app_call, dispatch, avm_bind, avm_ret; cbn [target sender minted].
  by destruct (certify_batch _ _ _ _ _ w).
Qed.

Lemma leaves_assign_role w s mt account role :
  leaves rule creator_address w (Call s mt (Assign_role account role)) =
  match assign_role rule creator_address s account role w with
  | Done _ w' | Abort _ w' => w'
  end.
Proof.
  unfold leaves, dispatch, avm_bind, avm_ret; cbn [target sender minted].
  by destruct (assign_role _ _ _ _ _ w).
Qed.

Lemma leaves_create_batch_v2 w s mt b :
  leaves rule creator_address w (Call s mt (Create_batch_v2 b)) =
  match create_batch_v2 rule s b w with Done _ w' | Abort _ w' => w' end.
Proof.
  unfold leaves, dispatch, avm_bind, avm_ret; cbn [target sender minted].
  by destruct (create_batch_v2 _ _ _ w).
Qed.

Lemma leaves_approve_batch_v2 w s mt b :
  leaves rule creator_address w (Call s mt (Approve_batch_v2 b)) =
  match approve_batch_v2 rule s b w with Done _ w' | Abort _ w' => w' end.
Proof.
  unfold leaves, dispatch, avm_bind, avm_ret; cbn [target sender minted].
  by destruct (approve_batch_v2 _ _ _ w).
Qed.

Lemma leaves_certify_batch w s mt b :
  leaves rule creator_address w (Call s mt (Certify_batch b)) =
  match certify_batch rule creator_address s mt b w with
  | Done _ w' | Abort _ w' => w'
  end.
Proof.
  unfold leaves, dispatch, avm_bind, avm_ret; cbn [target sender minted].
  by destruct (certify_batch _ _ _ _ _ w).
Qed.

End Forward.


(** ** What the reads answer *)

Section Reads.

Variable rule : put_rule.
Variable creator_address : Address.

Lemma app_call_get_batch_status_v2 w s mt b :
  app_call rule creator_address w (Call s mt (Get_batch_status_v2 b)) =
  match boxes w !! state_key b with
  | Some x =>
      match btoi x with
      | Some n => (w, Returned (RUInt64 n))
      | None => (w, Failed BtoiTooLong)
      end
  | None => (w, Returned (RUInt64 99))
  end.
Proof.
  unfold app_call, dispatch, get_batch_status_v2; cbn [target].
  method_eval. destruct (boxes w !! _) as [x|]; [|done].
  by destruct (btoi x).
Qed.

Lemma app_call_get_batch_asset w s mt b :
  app_call rule creator_address w (Call s mt (Get_batch_asset b)) =
  match boxes w !! asset_key b with
  | Some x =>
      match btoi x with
      | Some n => (w, Returned (RUInt64 n))
      | None => (w, Failed BtoiTooLong)
      end
  | None => (w, Returned (RUInt64 0))
  end.
Proof.
  unfold app_call, dispatch, get_batch_asset; cbn [target].
  method_eval. destruct (boxes w !! _) as [x|]; [|done].
  by destruct (btoi x).
Qed.

Lemma app_call_get_role w s mt a :
  app_call rule creator_address w (Call s mt (Get_role a)) =
  if bool_decide (a = creator_address) then (w, Returned (RUInt64 0))
  else match boxes w !! role_key a with
       | Some x =>
           match btoi x with
           | Some n => (w, Returned (RUInt64 n))
           | None => (w, Failed BtoiTooLong)
           end
       | None => (w, Returned (RUInt64 99))
       end.
Proof.
  unfold app_call, dispatch, get_role; cbn [target].
  case_bool_decide; [done|]. method_eval.
  destruct (boxes w !! _) as [x|]; [|done]. by destruct (btoi x).
Qed.

Lemma app_call_get_vendor_batches w s mt v :
  app_call rule creator_address w (Call s mt (Get_vendor_batches v)) =
  match boxes w !! vendor_key v with
  | Some x => (w, Failed (AttributeError "decode"))
  | None => (w, Returned (RString ""))
  end.
Proof.
  unfold app_call, dispatch, get_vendor_batches; cbn [target].
  method_eval. by destruct (boxes w !! _) as [x|].
Qed.

(** The reads of a batch without a state box, and of any batch, in a
    well-formed world. *)
Lemma fresh_reads w b s mt :
  world_ok w ->
  boxes w !! state_key b = None ->
  app_call rule creator_address w (Call s mt (Get_batch_status_v2 b))
    = (w, Returned (RUInt64 99)) ∧
  app_call rule creator_address w (Call s mt (Get_batch_asset b))
    = (w, Returned (RUInt64 0)) ∧
  ∀ b', (∃ n, app_call rule creator_address w (Call s mt (Get_batch_status_v2 b'))
               = (w, Returned (RUInt64 n))) ∧
        (∃ n, app_call rule creator_address w (Call s mt (Get_batch_asset b'))
               = (w, Returned (RUInt64 n))).
Proof.
  intros Hok Hs. pose proof Hok as [_ Hst Has].
  assert (boxes w !! asset_key b = None) as Ha.
  { destruct (boxes w !! asset_key b) as [x|] eqn:Hx; [|done].
    destruct (Has b x Hx) as [H2 _]. congruence. }
  rewrite app_call_get_batch_status_v2, app_call_get_batch_asset, Hs, Ha.
  split; [done|]. split; [done|]. intros b'.
  rewrite app_call_get_batch_status_v2, app_call_get_batch_asset. split.
  - destruct (boxes w !! state_key b') as [x|] eqn:E; [|by eexists].
    destruct (Hst b' x E) as [->|[->| ->]]; by eexists.
  - destruct (boxes w !! asset_key b') as [x|] eqn:E; [|by eexists].
    destruct (Has b' x E) as [_ [asa_id ->]].
    rewrite btoi_itob_mod. by eexists.
Qed.


Lemma created_by_run cs w v :
  created_by v (snd (run rule creator_address w cs)) = [].
Proof.
  revert w. induction cs as [|c cs IH]; intros w; cbn [run]; [done|].
  destruct (app_call rule creator_address w c) as [w1 r] eqn:E1.
  specialize (IH w1). destruct (run rule creator_address w1 cs) as [w2 h2].
  cbn [snd created_by] in *. destruct r as [x|f].
  - apply app_call_Returned in E1 as [Hq _]. by destruct (target c).
  - by destruct (target c).
Qed.


End Reads.

(** ** The claims *)

Section Claims.

Variable rule : put_rule.
Variable creator_address : Address.

(** *** Legacy entry points *)

(** C10. The three original methods [create_batch], [approve_batch] and
    [get_batch_status] (taking a [UInt64]) answer 0, 1 and 1 for every
    argument, every sender and every world, and commit the world they were
    called in: no check of the sender, no box read or written, no event.  In
    particular [get_batch_status] answers 1 in the initial world, where no
    batch was ever created. *)
Theorem C10_legacy_stubs (w : world) (s : Address) (mt : option N) (n : N) :
  app_call rule creator_address w (Call s mt (Create_batch n))
    = (w, Returned (RUInt64 0)) ∧
  app_call rule creator_address w (Call s mt (Approve_batch n))
    = (w, Returned (RUInt64 1)) ∧
  app_call rule creator_address w (Call s mt (Get_batch_status n))
    = (w, Returned (RUInt64 1)) ∧
  app_call rule creator_address init_world (Call s mt (Get_batch_status n))
    = (init_world, Returned (RUInt64 1)).
Proof. repeat split. Qed.

(** *** Reads of a batch that was never created *)

(** C5. After any sequence of calls from deployment, if the history
    holds no successful [create_batch_v2] of [b], then [get_batch_status_v2]
    answers 99 for [b] and [get_batch_asset] answers 0; and in that world
    both reads, of any batch, return a value and commit the world
    unchanged.  The same holds in every well-formed world in which [b] has
    no state box. *)
Theorem C5_fresh_batch_reads (cs : list call) (w : world)
    (h : list (call * result)) (b : Bytes) (s : Address) (mt : option N) :
  run rule creator_address init_world cs = (w, h) ->
  created_in b h = false ->
  (app_call rule creator_address w (Call s mt (Get_batch_status_v2 b))
     = (w, Returned (RUInt64 99)) ∧
   app_call rule creator_address w (Call s mt (Get_batch_asset b))
     = (w, Returned (RUInt64 0)) ∧
   ∀ b', (∃ n, app_call rule creator_address w (Call s mt (Get_batch_status_v2 b'))
                = (w, Returned (RUInt64 n))) ∧
         (∃ n, app_call rule creator_address w (Call s mt (Get_batch_asset b'))
                = (w, Returned (RUInt64 n)))) ∧
  ∀ w0, world_ok w0 -> boxes w0 !! state_key b = None ->
    app_call rule creator_address w0 (Call s mt (Get_batch_status_v2 b))
      = (w0, Returned (RUInt64 99)) ∧
    app_call rule creator_address w0 (Call s mt (Get_batch_asset b))
      = (w0, Returned (RUInt64 0)) ∧
    ∀ b', (∃ n, app_call rule creator_address w0 (Call s mt (Get_batch_status_v2 b'))
                 = (w0, Returned (RUInt64 n))) ∧
          (∃ n, app_call rule creator_address w0 (Call s mt (Get_batch_asset b'))
                 = (w0, Returned (RUInt64 n))).
Proof.
  intros Hrun _. split; [|intros w0; apply fresh_reads].
  assert (w = init_world) as ->.
  { change w with (fst (w, h)). rewrite <- Hrun. apply run_same. }
  apply fresh_reads; [apply init_world_ok|]. cbn. apply lookup_empty.
Qed.

(** *** Who may call what *)

Lemma create_batch_v2_gate w s mt b :
  world_ok w -> stored_role w s ≠ Some 1 ->
  ∃ f, app_call rule creator_address w (Call s mt (Create_batch_v2 b))
         = (w, Failed f) ∧ classify f = Unauthorized ∧
       create_batch_v2 rule s b w = Abort f w.
Proof.
  intros Hok Hr. rewrite app_call_create_batch_v2.
  destruct (world_ok_stored_role w s Hok) as [[Hn _]|[[_ H1]|[_ H2]]].
  - rewrite create_batch_v2_no_role by done. by eexists.
  - done.
  - rewrite (create_batch_v2_not_vendor _ _ _ _ 2) by done. by eexists.
Qed.

Lemma approve_batch_v2_gate w s mt b :
  world_ok w -> stored_role w s ≠ Some 2 ->
  ∃ f, app_call rule creator_address w (Call s mt (Approve_batch_v2 b))
         = (w, Failed f) ∧ classify f = Unauthorized ∧
       approve_batch_v2 rule s b w = Abort f w.
Proof.
  intros Hok Hr. rewrite app_call_approve_batch_v2.
  destruct (world_ok_stored_role w s Hok) as [[Hn _]|[[_ H1]|[_ H2]]].
  - rewrite approve_batch_v2_no_role by done. by eexists.
  - rewrite (approve_batch_v2_not_inspector _ _ _ _ 1) by done. by eexists.
  - done.
Qed.

Lemma certify_batch_role_gate w s mt b :
  world_ok w -> s ≠ creator_address -> stored_role w s ≠ Some 2 ->
  ∃ f, app_call rule creator_address w (Call s mt (Certify_batch b))
         = (w, Failed f) ∧ classify f = Unauthorized ∧
       certify_batch rule creator_address s mt b w = Abort f w.
Proof.
  intros Hok Hs Hr. rewrite app_call_certify_batch.
  destruct (world_ok_stored_role w s Hok) as [[Hn _]|[[_ H1]|[_ H2]]].
  - rewrite certify_batch_no_role by done. by eexists.
  - rewrite (certify_batch_not_inspector _ _ _ _ _ _ 1) by done. by eexists.
  - done.
Qed.

Lemma assign_role_gate w s mt account role :
  s ≠ creator_address ->
  ∃ f, app_call rule creator_address w (Call s mt (Assign_role account role))
         = (w, Failed f) ∧ classify f = Unauthorized ∧
       assign_role rule creator_address s account role w = Abort f w.
Proof.
  intros Hs. rewrite app_call_assign_role, assign_role_not_admin by done.
  by eexists.
Qed.

(** C2. In every well-formed world: [create_batch_v2] returns only for
    a sender whose stored role is 1, [approve_batch_v2] only for a sender
    whose stored role is 2, [certify_batch] only for the creator or a sender
    whose stored role is 2, [assign_role] only for the creator; any other
    sender gets a failure of class [Unauthorized], and the world is
    committed unchanged: the method itself stops at its role check, in the
    world it started in. *)
Theorem C2_role_gate (w : world) (s : Address) (mt : option N) (b : Bytes)
    (account : Address) (role : N) :
  world_ok w ->
  ((∀ w' v, app_call rule creator_address w (Call s mt (Create_batch_v2 b))
              = (w', Returned v) -> stored_role w s = Some 1) ∧
   (stored_role w s ≠ Some 1 ->
    ∃ f, app_call rule creator_address w (Call s mt (Create_batch_v2 b))
           = (w, Failed f) ∧ classify f = Unauthorized ∧
         create_batch_v2 rule s b w = Abort f w)) ∧
  ((∀ w' v, app_call rule creator_address w (Call s mt (Approve_batch_v2 b))
              = (w', Returned v) -> stored_role w s = Some 2) ∧
   (stored_role w s ≠ Some 2 ->
    ∃ f, app_call rule creator_address w (Call s mt (Approve_batch_v2 b))
           = (w, Failed f) ∧ classify f = Unauthorized ∧
         approve_batch_v2 rule s b w = Abort f w)) ∧
  ((∀ w' v, app_call rule creator_address w (Call s mt (Certify_batch b))
              = (w', Returned v) ->
            s = creator_address ∨ stored_role w s = Some 2) ∧
   (s ≠ creator_address -> stored_role w s ≠ Some 2 ->
    ∃ f, app_call rule creator_address w (Call s mt (Certify_batch b))
           = (w, Failed f) ∧ classify f = Unauthorized ∧
         certify_batch rule creator_address s mt b w = Abort f w)) ∧
  ((∀ w' v, app_call rule creator_address w (Call s mt (Assign_role account role))
              = (w', Returned v) -> s = creator_address) ∧
   (s ≠ creator_address ->
    ∃ f, app_call rule creator_address w (Call s mt (Assign_role account role))
           = (w, Failed f) ∧ classify f = Unauthorized ∧
         assign_role rule creator_address s account role w = Abort f w)).
Proof.
  intros Hok.
  split; [|split; [|split]]; split.
  - by intros w' v [? _]%app_call_Returned.
  - by apply create_batch_v2_gate.
  - by intros w' v [? _]%app_call_Returned.
  - by apply approve_batch_v2_gate.
  - by intros w' v [? _]%app_call_Returned.
  - by apply certify_batch_role_gate.
  - by intros w' v [? _]%app_call_Returned.
  - by apply assign_role_gate.
Qed.

(** *** Creating a batch twice *)

(** C4, as the code has it.  In every well-formed world where the state
    box of [b] exists, a [create_batch_v2] of [b] fails whoever sends it,
    and the world is committed unchanged: the method itself stops at a
    check, in the world it started in.  The class of the failure follows
    the order of the checks: [AlreadyExists] for a sender whose stored role
    is 1, [Unauthorized] for every other sender. *)
Theorem C4_second_create_fails (w : world) (s : Address) (mt : option N)
    (b x : Bytes) :
  world_ok w ->
  boxes w !! state_key b = Some x ->
  ∃ f, app_call rule creator_address w (Call s mt (Create_batch_v2 b))
         = (w, Failed f) ∧
       classify f = (if decide (stored_role w s = Some 1)
                     then AlreadyExists else Unauthorized) ∧
       create_batch_v2 rule s b w = Abort f w.
Proof.
  intros Hok Hx. case_decide as Hr.
  - rewrite app_call_create_batch_v2.
    rewrite (create_batch_v2_exists _ _ _ _ x) by done. by eexists.
  - by apply create_batch_v2_gate.
Qed.

(** *** The lifecycle of a batch *)

(** C1. For every batch [b] and every call, both in the world the call
    commits and in the world its program leaves when it stops: a state box
    that is absent stays absent unless the call is a [create_batch_v2] of
    [b], which writes state 0; a state box that is present is never
    removed, and its contents either stay or go from 0 to 1 through
    [approve_batch_v2] of [b], or from 1 to 2 through [certify_batch] of
    [b].  [create_batch_v2] returns only when the box was absent,
    [approve_batch_v2] only when the stored state was 0, [certify_batch]
    only when it was 1. *)
Theorem C1_monotonic_transitions (w w' : world) (c : call) (r : result)
    (b : Bytes) :
  app_call rule creator_address w c = (w', r) ->
  (boxes w !! state_key b = None ->
   boxes w' !! state_key b = None ∨
   (boxes w' !! state_key b = Some (itob 0) ∧
    target c = Create_batch_v2 b ∧ r = Returned (RUInt64 0))) ∧
  (∀ x, boxes w !! state_key b = Some x ->
   boxes w' !! state_key b = Some x ∨
   (btoi x = Some 0 ∧ boxes w' !! state_key b = Some (itob 1) ∧
    target c = Approve_batch_v2 b ∧ r = Returned (RUInt64 1)) ∨
   (btoi x = Some 1 ∧ boxes w' !! state_key b = Some (itob 2) ∧
    target c = Certify_batch b ∧ r = Returned (RUInt64 2))) ∧
  (∀ v, target c = Create_batch_v2 b -> r = Returned v ->
   boxes w !! state_key b = None ∧ stored_state w' b = Some 0) ∧
  (∀ v, target c = Approve_batch_v2 b -> r = Returned v ->
   stored_state w b = Some 0 ∧ stored_state w' b = Some 1) ∧
  (∀ v, target c = Certify_batch b -> r = Returned v ->
   stored_state w b = Some 1 ∧ stored_state w' b = Some 2) ∧
  (boxes w !! state_key b = None ->
   boxes (leaves rule creator_address w c) !! state_key b = None ∨
   (boxes (leaves rule creator_address w c) !! state_key b = Some (itob 0) ∧
    target c = Create_batch_v2 b ∧ stored_role w (sender c) = Some 1)) ∧
  (∀ x, boxes w !! state_key b = Some x ->
   boxes (leaves rule creator_address w c) !! state_key b = Some x ∨
   (btoi x = Some 0 ∧
    boxes (leaves rule creator_address w c) !! state_key b = Some (itob 1) ∧
    target c = Approve_batch_v2 b) ∨
   (btoi x = Some 1 ∧
    boxes (leaves rule creator_address w c) !! state_key b = Some (itob 2) ∧
    target c = Certify_batch b)).
Proof.
  intros E.
  assert (w' = w) as ->.
  { change w' with (fst (w', r)). rewrite <- E. apply app_call_same. }
  assert (∀ v, r = Returned v -> quiet (target c) = true) as Hq.
  { intros v ->. by apply app_call_Returned in E as [? _]. }
  pose proof (body_state _ _ _ _ b (leaves_body rule creator_address w c))
    as Hb.
  unfold stored_state in *.
  split; [auto|]. split; [auto|].
  split; [intros v Ht Hr; apply Hq in Hr; by rewrite Ht in Hr|].
  split; [intros v Ht Hr; apply Hq in Hr; by rewrite Ht in Hr|].
  split; [intros v Ht Hr; apply Hq in Hr; by rewrite Ht in Hr|].
  split.
  - intros Hn. rewrite Hn in Hb.
    destruct Hb as [->|[(? & ? & _ & ->)|[(_ & _ & ? & _)|(_ & _ & ? & _)]]];
      auto; done.
  - intros x Hx. rewrite Hx in Hb.
    destruct Hb as [->|[(_ & _ & ? & _)|[(? & _ & ? & ->)|(? & _ & ? & ->)]]];
      auto; done.
Qed.

(** *** The certification token *)

Lemma asset_stable_leaves w c b x :
  world_ok w ->
  boxes w !! asset_key b = Some x ->
  boxes (leaves rule creator_address w c) !! asset_key b = Some x.
Proof.
  intros Hok Hx.
  destruct (body_asset _ _ _ _ b (leaves_body rule creator_address w c))
    as [->|(_ & _ & Hst & _)]; [done|].
  destruct (ok_asset w Hok b x Hx) as [H2 _].
  unfold stored_state in Hst. by rewrite H2 in Hst.
Qed.

Lemma asset_stable_bodies cs w b x :
  world_ok w ->
  boxes w !! asset_key b = Some x ->
  boxes (bodies rule creator_address w cs) !! asset_key b = Some x.
Proof.
  revert w. induction cs as [|c cs IH]; intros w Hok Hx; cbn [bodies]; [done|].
  apply IH; [by apply leaves_world_ok|by apply asset_stable_leaves].
Qed.

(** C3. In every well-formed world and for every batch [b], both in the
    world a call commits and in the world its program leaves: the asset box
    of [b] changes only if it was absent and the call is a [certify_batch]
    of [b] sent by the creator or an inspector while the stored state is 1,
    whose program writes state 2 and then the identifier the ledger
    assigned; and once the asset box holds a value, no sequence of calls
    changes it. *)
Theorem C3_certification_unique (w w' : world) (c : call) (r : result)
    (b : Bytes) :
  world_ok w ->
  app_call rule creator_address w c = (w', r) ->
  (boxes w' !! asset_key b ≠ boxes w !! asset_key b ->
   boxes w !! asset_key b = None ∧
   target c = Certify_batch b ∧ r = Returned (RUInt64 2) ∧
   stored_state w b = Some 1 ∧ stored_state w' b = Some 2 ∧
   ∃ asa_id, minted c = Some asa_id ∧
             boxes w' !! asset_key b = Some (itob asa_id)) ∧
  (∀ v, target c = Certify_batch b -> r = Returned v ->
   boxes w !! asset_key b = None ∧
   stored_state w b = Some 1 ∧ stored_state w' b = Some 2 ∧
   ∃ asa_id, minted c = Some asa_id ∧
             boxes w' !! asset_key b = Some (itob asa_id)) ∧
  (∀ x cs, boxes w !! asset_key b = Some x ->
   boxes (fst (run rule creator_address w cs)) !! asset_key b = Some x) ∧
  (boxes (leaves rule creator_address w c) !! asset_key b
     ≠ boxes w !! asset_key b ->
   boxes w !! asset_key b = None ∧
   target c = Certify_batch b ∧
   (sender c = creator_address ∨ stored_role w (sender c) = Some 2) ∧
   stored_state w b = Some 1 ∧
   stored_state (leaves rule creator_address w c) b = Some 2 ∧
   ∃ asa_id, minted c = Some asa_id ∧
             boxes (leaves rule creator_address w c) !! asset_key b
               = Some (itob asa_id)) ∧
  (∀ x cs, boxes w !! asset_key b = Some x ->
   boxes (bodies rule creator_address w cs) !! asset_key b = Some x).
Proof.
  intros Hok E.
  assert (w' = w) as ->.
  { change w' with (fst (w', r)). rewrite <- E. apply app_call_same. }
  split; [done|]. split.
  { intros v Ht ->. apply app_call_Returned in E as [Hq _].
    by rewrite Ht in Hq. }
  split; [intros x cs Hx; by rewrite run_same|]. split.
  - intros Hne.
    destruct (body_asset _ _ _ _ b (leaves_body rule creator_address w c))
      as [Heq|(Ht & Hs & Hst & Hst' & asa_id & Hm & Ha)]; [done|].
    assert (boxes w !! asset_key b = None) as Hfresh.
    { destruct (boxes w !! asset_key b) as [x|] eqn:Hx; [|done].
      destruct (ok_asset w Hok b x Hx) as [H2 _].
      unfold stored_state in Hst. by rewrite H2 in Hst. }
    unfold stored_state at 2. rewrite Hst'. eauto 10.
  - intros x cs Hx. by apply asset_stable_bodies.
Qed.

(** *** Role assignment *)

(** C7, where the code departs from it.  In every well-formed world
    [assign_role] fails with class [Unauthorized] when the sender is not the
    creator, and, sent by the creator, with class [InvalidArgument] when the
    role is neither 1 nor 2; in both cases the method stops at the check, in
    the world it started in.  Sent by the creator with role 1 or 2, the
    method writes exactly the encoded role into the role box of the account
    and then, instead of returning the role, stops at the audit line with an
    [AttributeError].  Were [assign_role] to return, the role box would hold
    that role, which is 1 or 2, and the role would be the value returned.
    Whatever programs run from there, every role box decodes to 1 or 2,
    never to 0 or 99. *)
Theorem C7_assign_role (w : world) (s : Address) (mt : option N)
    (account : Address) (role : N) :
  world_ok w ->
  (s ≠ creator_address ->
   ∃ f, app_call rule creator_address w (Call s mt (Assign_role account role))
          = (w, Failed f) ∧ classify f = Unauthorized ∧
        assign_role rule creator_address s account role w = Abort f w) ∧
  (s = creator_address -> role ≠ 1 -> role ≠ 2 ->
   ∃ f, app_call rule creator_address w (Call s mt (Assign_role account role))
          = (w, Failed f) ∧ classify f = InvalidArgument ∧
        assign_role rule creator_address s account role w = Abort f w) ∧
  (s = creator_address -> role = 1 ∨ role = 2 ->
   assign_role rule creator_address s account role w
   = Abort (AttributeError "hex")
       (World (<[role_key account := itob role]> (boxes w)) (logs w))) ∧
  (∀ w' v, app_call rule creator_address w (Call s mt (Assign_role account role))
             = (w', Returned v) ->
           v = RUInt64 role ∧ (role = 1 ∨ role = 2) ∧
           boxes w' !! role_key account = Some (itob role) ∧
           stored_role w' account = Some role) ∧
  (∀ cs a,
     stored_role (bodies rule creator_address w cs) a = None ∨
     stored_role (bodies rule creator_address w cs) a = Some 1 ∨
     stored_role (bodies rule creator_address w cs) a = Some 2) ∧
  (∀ cs a,
     stored_role (bodies rule creator_address w cs) a ≠ Some 0 ∧
     stored_role (bodies rule creator_address w cs) a ≠ Some 99).
Proof.
  intros Hok.
  split; [|split; [|split; [|split; [|split]]]].
  - by apply assign_role_gate.
  - intros -> H1 H2.
    rewrite app_call_assign_role, assign_role_invalid by done. by eexists.
  - intros -> Hr. apply assign_role_audit; [done|].
    destruct (world_ok_stored_role w account Hok) as [[-> _]|[[-> _]|[-> _]]].
    + apply put_allowed_fresh.
    + apply put_allowed_itob.
    + apply put_allowed_itob.
  - intros w' v [Hq _]%app_call_Returned. done.
  - intros cs a.
    pose proof (bodies_world_ok rule creator_address cs w Hok) as Hok'.
    destruct (world_ok_stored_role _ a Hok') as [[_ ->]|[[_ ->]|[_ ->]]]; auto.
  - intros cs a.
    pose proof (bodies_world_ok rule creator_address cs w Hok) as Hok'.
    destruct (world_ok_stored_role _ a Hok') as [[_ ->]|[[_ ->]|[_ ->]]]; done.
Qed.

(** *** The vendor list *)

(** C6, where the code departs from it.  [get_vendor_batches] answers
    the empty string for a vendor without a list box, and for a vendor with
    one it stops at [decode] instead of answering the list: the call fails,
    whatever the box holds.  The list box is the one [create_batch_v2]
    itself writes: sent by a vendor without a list for an identifier without
    a state box, its program writes the identifier as the list, and no
    [create_batch_v2] returns. *)
Theorem C6_vendor_list_unreadable (w : world) (v s : Address)
    (mt : option N) (b : Bytes) :
  (∀ x, boxes w !! vendor_key v = Some x ->
   get_vendor_batches v w = Abort (AttributeError "decode") w ∧
   app_call rule creator_address w (Call s mt (Get_vendor_batches v))
     = (w, Failed (AttributeError "decode"))) ∧
  (boxes w !! vendor_key v = None ->
   app_call rule creator_address w (Call s mt (Get_vendor_batches v))
     = (w, Returned (RString ""))) ∧
  (stored_role w v = Some 1 -> boxes w !! state_key b = None ->
   boxes w !! vendor_key v = None ->
   boxes (leaves rule creator_address w (Call v mt (Create_batch_v2 b)))
     !! vendor_key v = Some b) ∧
  (∃ f, snd (app_call rule creator_address w (Call v mt (Create_batch_v2 b)))
        = Failed f).
Proof.
  split; [|split; [|split]].
  - intros x Hx. split.
    + unfold get_vendor_batches. by method_eval.
    + by rewrite app_call_get_vendor_batches, Hx.
  - intros Hn. by rewrite app_call_get_vendor_batches, Hn.
  - intros Hr Hb Hv.
    rewrite leaves_create_batch_v2, create_batch_v2_audit; try done.
    + cbn [boxes]. by rewrite lookup_insert_eq, Hv.
    + rewrite Hv. apply put_allowed_fresh.
  - rewrite app_call_create_batch_v2.
    destruct (create_batch_v2_stops rule v b w) as (f & x & ->). by eexists.
Qed.

(** *** Failing calls *)




End Claims.

(** *** The delimiter inside an identifier *)

Lemma put_refused_longer (e b : Bytes) :
  put_allowed KeepsLength (Some e) (e +:+ "|" +:+ b) = false.
Proof.
  unfold put_allowed. apply Nat.eqb_neq. rewrite !string_length_app.
  cbn [String.length]. lia.
Qed.

(** A vendor list is written once and never extended. *)
Lemma create_batch_v2_list_once creator_address s mt b w v :
  boxes (leaves KeepsLength creator_address w (Call s mt (Create_batch_v2 b)))
    !! vendor_key v = boxes w !! vendor_key v ∨
  (boxes w !! vendor_key v = None ∧ s = v ∧
   boxes (leaves KeepsLength creator_address w (Call s mt (Create_batch_v2 b)))
     !! vendor_key v = Some b).
Proof.
  rewrite leaves_create_batch_v2.
  destruct (boxes w !! role_key s) as [rv|] eqn:Hrole;
    [|rewrite create_batch_v2_no_role by done; by left].
  destruct (btoi rv) as [r|] eqn:Hbtoi; cycle 1.
  { left. unfold create_batch_v2. method_eval. done. }
  destruct (decide (r = 1)) as [->|Hr]; cycle 1.
  { rewrite (create_batch_v2_not_vendor _ _ _ _ r);
      [by left|unfold stored_role; by rewrite Hrole|done]. }
  assert (stored_role w s = Some 1) as Hs
    by (unfold stored_role; by rewrite Hrole).
  destruct (boxes w !! state_key b) as [x|] eqn:Hb;
    [rewrite (create_batch_v2_exists _ _ _ _ x) by done; by left|].
  destruct (boxes w !! vendor_key s) as [e|] eqn:He.
  - rewrite create_batch_v2_put_refused; try done.
    + left. cbn [boxes]. by rewrite lookup_insert_ne by key_neq.
    + rewrite He. apply put_refused_longer.
  - rewrite create_batch_v2_audit; try done.
    + cbn [boxes]. rewrite He. destruct (decide (s = v)) as [->|Hne].
      * right. by rewrite lookup_insert_eq.
      * left. by rewrite !lookup_insert_ne by key_neq.
    + rewrite He. apply put_allowed_fresh.
Qed.

(** C9, where the code departs from it.  [create_batch_v2] does not look
    at the bytes of the identifier: sent by a vendor without a list for an
    identifier without a state box, the method writes the identifier as it is
    into the list box, ["a|b"] as any other, and then stops at the audit line
    instead of returning; and the ["|"]-join does not tell [["a|b"]] from
    [["a"; "b"]].  But no list of two identifiers is ever stored: the
    program of any call leaves the list box of a vendor as it was, or writes
    a single identifier into a box that did not exist. *)
Theorem C9_delimiter_accepted (creator_address : Address) (w : world)
    (s : Address) (mt : option N) (b : Bytes) :
  (stored_role w s = Some 1 -> boxes w !! state_key b = None ->
   boxes w !! vendor_key s = None ->
   create_batch_v2 KeepsLength s b w
   = Abort (AttributeError "hex")
       (World (<[vendor_key s := b]> (<[state_key b := itob 0]> (boxes w)))
          (logs w))) ∧
  join "|" ["a|b"] = join "|" ["a"; "b"] ∧
  (∀ c v,
     boxes (leaves KeepsLength creator_address w c) !! vendor_key v
       = boxes w !! vendor_key v ∨
     (boxes w !! vendor_key v = None ∧
      ∃ b', target c = Create_batch_v2 b' ∧ sender c = v ∧
            boxes (leaves KeepsLength creator_address w c) !! vendor_key v
              = Some b')).
Proof.
  split; [|split; [done|]].
  - intros Hr Hb Hv. rewrite create_batch_v2_audit; try done.
    + by rewrite Hv.
    + rewrite Hv. apply put_allowed_fresh.
  - intros c v. destruct c as [s0 mt0 m].
    destruct (decide (quiet m = false)) as [Hq|Hq].
    + destruct m; try done.
      * left. destruct (body_vendor _ _ _ _ v
          (leaves_body KeepsLength creator_address w
             (Call s0 mt0 (Assign_role account role))))
          as [?|(? & ? & _)]; done.
      * destruct (create_batch_v2_list_once creator_address s0 mt0 batch_id w v)
          as [?|(? & ? & ?)]; [by left|right]. split; [done|]. by eexists.
      * left. destruct (body_vendor _ _ _ _ v
          (leaves_body KeepsLength creator_address w
             (Call s0 mt0 (Approve_batch_v2 batch_id))))
          as [?|(? & ? & _)]; done.
      * left. destruct (body_vendor _ _ _ _ v
          (leaves_body KeepsLength creator_address w
             (Call s0 mt0 (Certify_batch batch_id))))
          as [?|(? & ? & _)]; done.
    + left. destruct (body_vendor _ _ _ _ v
        (leaves_body KeepsLength creator_address w (Call s0 mt0 m)))
        as [?|(? & Ht & _)]; [done|]. cbn in Ht. subst m. done.
Qed.

(** Over any two sequences of calls from deployment, the identifiers a
    vendor has successfully created are the same, for no [create_batch_v2]
    ever returns: there are no two distinct sequences of successfully
    created identifiers, with or without the same list. *)
Lemma no_two_created_sequences :
  ¬ ∃ (rule : put_rule) (creator_address v s : Address)
      (cs1 cs2 : list call),
      created_by v (snd (run rule creator_address init_world cs1))
        ≠ created_by v (snd (run rule creator_address init_world cs2)) ∧
      snd (app_call rule creator_address
             (fst (run rule creator_address init_world cs1))
             (Call s None (Get_vendor_batches v)))
      = snd (app_call rule creator_address
               (fst (run rule creator_address init_world cs2))
               (Call s None (Get_vendor_batches v))).
Proof.
  intros (rule & creator_address & v & s & cs1 & cs2 & Hne & _).
  by rewrite !created_by_run in Hne.
Qed.


(** * Further properties *)

Section Roles.

Variable rule : put_rule.
Variable creator_address : Address.

(** X1. In every well-formed world [get_role] returns, for any account
    and any sender, and commits the world unchanged: 0 for the creator,
    whatever its role box holds; for any other account the stored role,
    which is 1 or 2, or 99 when the account has no role box. *)
Theorem X1_get_role_total (w : world) (s : Address) (mt : option N)
    (a : Address) :
  world_ok w ->
  ∃ n, app_call rule creator_address w (Call s mt (Get_role a))
         = (w, Returned (RUInt64 n)) ∧
       (a = creator_address -> n = 0) ∧
       (a ≠ creator_address ->
        (stored_role w a = None ∧ n = 99) ∨
        (stored_role w a = Some n ∧ (n = 1 ∨ n = 2))).
Proof.
  intros Hok. rewrite app_call_get_role.
  case_bool_decide as Ha.
  - exists 0. by repeat split.
  - destruct (world_ok_stored_role w a Hok)
      as [[Hb Hs]|[[Hb Hs]|[Hb Hs]]]; rewrite Hb, ?btoi_itob_1, ?btoi_itob_2.
    + exists 99. repeat split; [done|]. intros _. by left.
    + exists 1. repeat split; [done|]. intros _. right. auto.
    + exists 2. repeat split; [done|]. intros _. right. auto.
Qed.

(** X3. No call sent by an account other than the creator changes any
    role box, whatever the method and its arguments, neither in the world
    it commits nor in the world its program leaves: roles cannot be
    acquired or altered by the accounts that hold them. *)
Theorem X3_roles_only_by_creator (w w' : world) (c : call) (r : result)
    (a : Address) :
  app_call rule creator_address w c = (w', r) ->
  sender c ≠ creator_address ->
  boxes w' !! role_key a = boxes w !! role_key a ∧
  stored_role w' a = stored_role w a ∧
  boxes (leaves rule creator_address w c) !! role_key a
    = boxes w !! role_key a.
Proof.
  intros E Hs.
  assert (w' = w) as ->.
  { change w' with (fst (w', r)). rewrite <- E. apply app_call_same. }
  split; [done|]. split; [done|].
  by destruct (body_role _ _ _ _ a (leaves_body rule creator_address w c))
    as [?|(? & _ & ? & _)].
Qed.

(** X2. In a well-formed world, once the program of an [assign_role]
    sent by the creator with role 1 or 2 has run, the role box of the account
    holds the encoded role, [get_role] of the account (if it is not the
    creator) answers that role, and [get_role] of every other account
    answers what it answered before. *)
Theorem X2_assign_then_get_role (w : world) (s : Address) (mt mt' : option N)
    (account : Address) (role : N) :
  world_ok w ->
  role = 1 ∨ role = 2 ->
  boxes (leaves rule creator_address w
           (Call creator_address mt (Assign_role account role)))
    !! role_key account = Some (itob role) ∧
  (account ≠ creator_address ->
   app_call rule creator_address
     (leaves rule creator_address w
        (Call creator_address mt (Assign_role account role)))
     (Call s mt' (Get_role account))
   = (leaves rule creator_address w
        (Call creator_address mt (Assign_role account role)),
      Returned (RUInt64 role))) ∧
  (∀ a, a ≠ account ->
   snd (app_call rule creator_address
          (leaves rule creator_address w
             (Call creator_address mt (Assign_role account role)))
          (Call s mt' (Get_role a)))
   = snd (app_call rule creator_address w (Call s mt' (Get_role a)))).
Proof.
  intros Hok Hr.
  rewrite leaves_assign_role, assign_role_audit; [|done|]; cycle 1.
  { destruct (world_ok_stored_role w account Hok) as [[-> _]|[[-> _]|[-> _]]];
      [apply put_allowed_fresh|apply put_allowed_itob..]. }
  split; [|split].
  - cbn [boxes]. by rewrite lookup_insert_eq.
  - intros Ha. rewrite app_call_get_role. cbn [boxes].
    rewrite bool_decide_eq_false_2, lookup_insert_eq by done.
    by destruct Hr as [-> | ->].
  - intros a Ha. rewrite !app_call_get_role. cbn [boxes].
    rewrite lookup_insert_ne by (intros ?%role_key_inj; done).
    case_bool_decide; [done|].
    destruct (boxes w !! role_key a) as [x|]; [|done]. by destruct (btoi x).
Qed.

(** X4. [get_role] and the role checks of the methods do not agree about
    the creator: when the role box of the creator holds the Vendor role,
    [get_role] still answers 0 for the creator, while a [create_batch_v2]
    sent by the creator passes the role check and writes the state box of a
    new batch. *)
Theorem X4_creator_with_vendor_role (w : world) (s : Address)
    (mt : option N) (b : Bytes) :
  boxes w !! role_key creator_address = Some (itob 1) ->
  boxes w !! state_key b = None ->
  app_call rule creator_address w (Call s mt (Get_role creator_address))
    = (w, Returned (RUInt64 0)) ∧
  boxes (leaves rule creator_address w
           (Call creator_address mt (Create_batch_v2 b)))
    !! state_key b = Some (itob 0).
Proof.
  intros Hr Hb. split.
  - rewrite app_call_get_role. by rewrite bool_decide_eq_true_2.
  - assert (stored_role w creator_address = Some 1) as Hs
      by (unfold stored_role; by rewrite Hr).
    rewrite leaves_create_batch_v2.
    destruct (put_allowed rule (boxes w !! vendor_key creator_address)
                (match boxes w !! vendor_key creator_address with
                 | Some e => e +:+ "|" +:+ b
                 | None => b
                 end)) eqn:Hp.
    + rewrite create_batch_v2_audit by done. cbn [boxes].
      rewrite lookup_insert_ne by key_neq. by rewrite lookup_insert_eq.
    + rewrite create_batch_v2_put_refused by done. cbn [boxes].
      by rewrite lookup_insert_eq.
Qed.

End Roles.

Section Lifecycle.

Variable rule : put_rule.
Variable creator_address : Address.

(** X5. What [approve_batch_v2] does for an inspector in a well-formed
    world is decided by the stored state of the batch: no state box, a
    failure of class [NotFound]; state 1 or 2 (already approved or
    certified), a failure of class [InvalidTransition]; state 0, its
    program rewrites the state box to 1 and then stops at the audit line,
    without an event. *)
Theorem X5_approve_outcomes (w : world) (s : Address) (mt : option N)
    (b : Bytes) :
  world_ok w ->
  stored_role w s = Some 2 ->
  (stored_state w b = None ->
   ∃ f, app_call rule creator_address w (Call s mt (Approve_batch_v2 b))
          = (w, Failed f) ∧ classify f = NotFound) ∧
  (stored_state w b = Some 0 ->
   approve_batch_v2 rule s b w
   = Abort (AttributeError "hex")
       (World (<[state_key b := itob 1]> (boxes w)) (logs w))) ∧
  (∀ st, stored_state w b = Some st -> st ≠ 0 ->
   ∃ f, app_call rule creator_address w (Call s mt (Approve_batch_v2 b))
          = (w, Failed f) ∧ classify f = InvalidTransition).
Proof.
  intros Hok Hr. split; [|split].
  - intros Hn. rewrite app_call_approve_batch_v2.
    destruct (world_ok_stored_state w b Hok)
      as [[Hb _]|[[_ H]|[[_ H]|[_ H]]]]; try congruence.
    rewrite approve_batch_v2_not_found by done. by eexists.
  - intros H0.
    destruct (world_ok_stored_state w b Hok)
      as [[_ H]|[[Hb _]|[[_ H]|[_ H]]]]; try congruence.
    rewrite approve_batch_v2_audit; [done|done|done|].
    rewrite Hb. apply put_allowed_itob.
  - intros st Hst Hne. rewrite app_call_approve_batch_v2.
    rewrite (approve_batch_v2_wrong_state _ _ _ _ st) by done. by eexists.
Qed.

(** X6. What [certify_batch] does for the creator or an inspector in a
    well-formed world: no state box, a failure of class [NotFound]; state 0
    or 2 (not yet approved, or certified already), a failure of class
    [InvalidTransition]; state 1 and the ledger rejecting the asset, its
    program stops with class [MintingFailure] after it has rewritten the
    state box to 2; state 1 and the ledger assigning an identifier, its
    program rewrites the state box to 2, writes the identifier into the
    asset box and then stops at the audit line, without an event. *)
Theorem X6_certify_outcomes (w : world) (s : Address) (b : Bytes) :
  world_ok w ->
  s = creator_address ∨ stored_role w s = Some 2 ->
  (∀ mt, stored_state w b = None ->
   ∃ f, app_call rule creator_address w (Call s mt (Certify_batch b))
          = (w, Failed f) ∧ classify f = NotFound) ∧
  (∀ mt st, stored_state w b = Some st -> st ≠ 1 ->
   ∃ f, app_call rule creator_address w (Call s mt (Certify_batch b))
          = (w, Failed f) ∧ classify f = InvalidTransition) ∧
  (stored_state w b = Some 1 ->
   certify_batch rule creator_address s None b w
   = Abort InnerTxnRejected
       (World (<[state_key b := itob 2]> (boxes w)) (logs w)) ∧
   classify InnerTxnRejected = MintingFailure) ∧
  (∀ asa_id, stored_state w b = Some 1 ->
   certify_batch rule creator_address s (Some asa_id) b w
   = Abort (AttributeError "hex")
       (World (<[asset_key b := itob asa_id]>
                 (<[state_key b := itob 2]> (boxes w))) (logs w))).
Proof.
  intros Hok Hs.
  assert (stored_state w b = Some 1 ->
          boxes w !! state_key b = Some (itob 1) ∧
          boxes w !! asset_key b = None) as Happroved.
  { intros H1.
    destruct (world_ok_stored_state w b Hok)
      as [[_ H]|[[_ H]|[[Hb _]|[_ H]]]]; try congruence.
    split; [done|].
    destruct (boxes w !! asset_key b) as [x|] eqn:Hx; [|done].
    destruct (ok_asset w Hok b x Hx) as [H2 _].
    rewrite Hb in H2. discriminate. }
  split; [|split; [|split]].
  - intros mt Hn. rewrite app_call_certify_batch.
    destruct (world_ok_stored_state w b Hok)
      as [[Hb _]|[[_ H]|[[_ H]|[_ H]]]]; try congruence.
    rewrite certify_batch_not_found by done. by eexists.
  - intros mt st Hst Hne. rewrite app_call_certify_batch.
    rewrite (certify_batch_wrong_state _ _ _ _ _ _ st) by done. by eexists.
  - intros H1. destruct (Happroved H1) as [Hb Ha]. split; [|done].
    apply certify_batch_mint_rejected; [done|done|].
    rewrite Hb. apply put_allowed_itob.
  - intros asa_id H1. destruct (Happroved H1) as [Hb Ha].
    apply certify_batch_audit; [done|done| |].
    + rewrite Hb. apply put_allowed_itob.
    + rewrite Ha. apply put_allowed_fresh.
Qed.

(** X7. What [create_batch_v2] does for a vendor and an identifier
    without a state box, any byte string, the empty one included.  When the
    vendor has no list yet, its program writes state 0 and the identifier as
    the list, and then stops at the audit line.  When the vendor has a list,
    its program writes state 0 and stops at the second put, which the store
    refuses because the list would get longer: the list is left as it was,
    the state box written.  In neither case is an event emitted. *)
Theorem X7_create_outcome (w : world) (s : Address) (b : Bytes) :
  stored_role w s = Some 1 ->
  boxes w !! state_key b = None ->
  (boxes w !! vendor_key s = None ->
   create_batch_v2 rule s b w
   = Abort (AttributeError "hex")
       (World (<[vendor_key s := b]> (<[state_key b := itob 0]> (boxes w)))
          (logs w))) ∧
  (∀ e, boxes w !! vendor_key s = Some e ->
   create_batch_v2 KeepsLength s b w
   = Abort BoxPutLength
       (World (<[state_key b := itob 0]> (boxes w)) (logs w))).
Proof.
  intros Hr Hb. split.
  - intros Hv. rewrite create_batch_v2_audit; try done.
    + by rewrite Hv.
    + rewrite Hv. apply put_allowed_fresh.
  - intros e He. apply create_batch_v2_put_refused; [done|done|].
    rewrite He. apply put_refused_longer.
Qed.

(** X8. Reading after the writes of a program, in a well-formed world:
    once the program of a [create_batch_v2], [approve_batch_v2] or
    [certify_batch] of [b] that passes its checks has run,
    [get_batch_status_v2] of [b] answers 0, 1 or 2 respectively, and after
    the [certify_batch] [get_batch_asset] of [b] answers the identifier the
    ledger assigned, for every [UInt64] identifier. *)
Theorem X8_read_after_write (w : world) (s r : Address) (mt mt' : option N)
    (b : Bytes) :
  world_ok w ->
  (stored_role w s = Some 1 -> boxes w !! state_key b = None ->
   app_call rule creator_address
     (leaves rule creator_address w (Call s mt (Create_batch_v2 b)))
     (Call r mt' (Get_batch_status_v2 b))
   = (leaves rule creator_address w (Call s mt (Create_batch_v2 b)),
      Returned (RUInt64 0))) ∧
  (stored_role w s = Some 2 -> stored_state w b = Some 0 ->
   app_call rule creator_address
     (leaves rule creator_address w (Call s mt (Approve_batch_v2 b)))
     (Call r mt' (Get_batch_status_v2 b))
   = (leaves rule creator_address w (Call s mt (Approve_batch_v2 b)),
      Returned (RUInt64 1))) ∧
  (s = creator_address ∨ stored_role w s = Some 2 ->
   stored_state w b = Some 1 ->
   ∀ asa_id, asa_id < UInt64_max ->
   app_call rule creator_address
     (leaves rule creator_address w (Call s (Some asa_id) (Certify_batch b)))
     (Call r mt' (Get_batch_status_v2 b))
   = (leaves rule creator_address w (Call s (Some asa_id) (Certify_batch b)),
      Returned (RUInt64 2)) ∧
   app_call rule creator_address
     (leaves rule creator_address w (Call s (Some asa_id) (Certify_batch b)))
     (Call r mt' (Get_batch_asset b))
   = (leaves rule creator_address w (Call s (Some asa_id) (Certify_batch b)),
      Returned (RUInt64 asa_id))).
Proof.
  intros Hok. split; [|split].
  - intros Hr Hb. rewrite leaves_create_batch_v2.
    destruct (put_allowed rule (boxes w !! vendor_key s)
                (match boxes w !! vendor_key s with
                 | Some e => e +:+ "|" +:+ b
                 | None => b
                 end)) eqn:Hp.
    + rewrite create_batch_v2_audit by done.
      rewrite app_call_get_batch_status_v2. cbn [boxes].
      rewrite lookup_insert_ne by key_neq. by rewrite lookup_insert_eq.
    + rewrite create_batch_v2_put_refused by done.
      rewrite app_call_get_batch_status_v2. cbn [boxes].
      by rewrite lookup_insert_eq.
  - intros Hr H0.
    destruct (world_ok_stored_state w b Hok)
      as [[_ H]|[[Hb _]|[[_ H]|[_ H]]]]; try congruence.
    rewrite leaves_approve_batch_v2, approve_batch_v2_audit; [|done|done|];
      cycle 1.
    { rewrite Hb. apply put_allowed_itob. }
    rewrite app_call_get_batch_status_v2. cbn [boxes].
    by rewrite lookup_insert_eq.
  - intros Hs H1 asa_id Hid.
    destruct (world_ok_stored_state w b Hok)
      as [[_ H]|[[_ H]|[[Hb _]|[_ H]]]]; try congruence.
    assert (boxes w !! asset_key b = None) as Ha.
    { destruct (boxes w !! asset_key b) as [x|] eqn:Hx; [|done].
      destruct (ok_asset w Hok b x Hx) as [H2 _].
      rewrite Hb in H2. discriminate. }
    rewrite leaves_certify_batch, certify_batch_audit; [|done|done| |];
      cycle 1.
    { rewrite Hb. apply put_allowed_itob. }
    { rewrite Ha. apply put_allowed_fresh. }
    rewrite app_call_get_batch_status_v2, app_call_get_batch_asset.
    cbn [boxes]. rewrite lookup_insert_ne by key_neq.
    rewrite !lookup_insert_eq, btoi_itob_2, (btoi_itob asa_id) by done.
    done.
Qed.

(** X12. The audit log stays as it is: the program of no call appends
    an event, whether it returns or aborts, so after any sequence of
    programs the log is the one before; and no call of [assign_role],
    [create_batch_v2], [approve_batch_v2] or [certify_batch] returns. *)
Theorem X12_no_event_no_return (w : world) (c : call) (cs : list call) :
  logs (leaves rule creator_address w c) = logs w ∧
  logs (bodies rule creator_address w cs) = logs w ∧
  logs (fst (run rule creator_address w cs)) = logs w ∧
  (quiet (target c) = false ->
   ∃ f, snd (app_call rule creator_address w c) = Failed f).
Proof.
  split; [|split; [|split]].
  - apply (body_logs creator_address w c), leaves_body.
  - revert w. induction cs as [|c0 cs IH]; intros w; cbn [bodies]; [done|].
    rewrite IH. apply (body_logs creator_address w c0), leaves_body.
  - by rewrite run_same.
  - intros Hq.
    destruct (app_call rule creator_address w c) as [w' [v|f]] eqn:E.
    + apply app_call_Returned in E as [Hq' _]. congruence.
    + by eexists.
Qed.

End Lifecycle.

Section Histories.

Variable rule : put_rule.
Variable creator_address : Address.




End Histories.

(** ** The dashboard *)

Section Dashboard.

Variable rule : put_rule.
Variable creator_address : Address.


(** X17. The sentinels mean what they say: in a well-formed world
    [get_batch_status_v2] answers 99 exactly for the batches that have no
    state box, [get_batch_asset] never fails, and [get_role] answers 99
    exactly for the accounts, other than the creator, that have no role
    box. *)
Theorem X17_sentinels (w : world) (s : Address) (mt : option N) (b : Bytes)
    (a : Address) :
  world_ok w ->
  (app_call rule creator_address w (Call s mt (Get_batch_status_v2 b))
     = (w, Returned (RUInt64 99))
   ↔ boxes w !! state_key b = None) ∧
  (∃ n, app_call rule creator_address w (Call s mt (Get_batch_asset b))
          = (w, Returned (RUInt64 n))) ∧
  (app_call rule creator_address w (Call s mt (Get_role a))
     = (w, Returned (RUInt64 99))
   ↔ a ≠ creator_address ∧ boxes w !! role_key a = None).
Proof.
  intros Hok. split; [|split].
  - rewrite app_call_get_batch_status_v2.
    destruct (world_ok_stored_state w b Hok)
      as [[-> _]|[[-> _]|[[-> _]|[-> _]]]]; split; done.
  - rewrite app_call_get_batch_asset.
    destruct (boxes w !! asset_key b) as [x|] eqn:Hx; [|by eexists].
    destruct (ok_asset w Hok b x Hx) as [_ [asa_id ->]].
    rewrite btoi_itob_mod. by eexists.
  - rewrite app_call_get_role. case_bool_decide as Ha.
    + split; [done|]. by intros [? _].
    + destruct (world_ok_stored_role w a Hok) as [[-> _]|[[-> _]|[-> _]]];
        split; try done; by intros [_ ?].
Qed.

End Dashboard.

Lemma split_plain sep s :
  contains sep s = false -> split sep s = [s].
Proof.
  induction s as [|c r IH]; [done|]. cbn [contains split].
  intros [Hc Hr]%orb_false_iff. rewrite Hc, IH by done. done.
Qed.

Lemma split_app_sep sep x r :
  contains sep x = false ->
  split sep (x +:+ String sep r) = x :: split sep r.
Proof.
  induction x as [|c x IH].
  - intros _. change (split sep (String sep r) = "" :: split sep r).
    cbn [split]. by rewrite Ascii.eqb_refl.
  - cbn [contains]. intros [Hc Hx]%orb_false_iff.
    change (split sep (String c (x +:+ String sep r)) = String c x :: split sep r).
    cbn [split]. by rewrite Hc, IH.
Qed.

Lemma split_pieces sep s :
  Forall (fun p => contains sep p = false) (split sep s).
Proof.
  induction s as [|c r IH]; [by repeat constructor|]. cbn [split].
  destruct (Ascii.eqb c sep) eqn:Hc; [by constructor|].
  destruct IH as [|p ps Hp Hps]; [by repeat constructor; cbn; rewrite Hc|].
  constructor; [|done]. cbn [contains]. by rewrite Hc, Hp.
Qed.

Lemma split_join ids :
  ids ≠ [] ->
  Forall (fun b => contains "|" b = false) ids ->
  split "|" (join "|" ids) = ids.
Proof.
  induction ids as [|x ids IH]; [done|]. intros _ Hall.
  apply Forall_cons in Hall as [Hx Hids].
  destruct ids as [|y ids]; [by apply split_plain|].
  change (join "|" (x :: y :: ids))
    with (x +:+ String "|" (join "|" (y :: ids))).
  rewrite split_app_sep by done. by rewrite IH.
Qed.

Lemma filter_plain ids :
  forallb plain_id ids = true ->
  List.filter (fun b => negb (String.eqb b "")) ids = ids.
Proof.
  induction ids as [|x ids IH]; [done|]. cbn [forallb List.filter].
  intros [[Hx _]%andb_true_iff Hids]%andb_true_iff.
  by rewrite Hx, IH.
Qed.

Lemma plain_no_bar ids :
  forallb plain_id ids = true ->
  Forall (fun b => contains "|" b = false) ids.
Proof.
  induction ids as [|x ids IH]; [constructor|]. cbn [forallb].
  intros [[_ Hx%negb_true_iff]%andb_true_iff Hids]%andb_true_iff.
  constructor; auto.
Qed.

Lemma or_empty (s : string) : (if String.eqb s "" then "" else s) = s.
Proof. by destruct (String.eqb_spec s "") as [->|]. Qed.

(** What the page shows for the stored list, when it is the join of [ids]. *)
Lemma vendor_page_join ids :
  forallb plain_id ids = true ->
  vendor_page_batches (Some (join "|" ids)) = ids.
Proof.
  intros Hp. unfold vendor_page_batches.
  destruct ids as [|x ids]; [done|].
  rewrite or_empty.
  rewrite split_join by (by auto using plain_no_bar).
  by apply filter_plain.
Qed.

(** Every entry the page shows is a plain identifier. *)
Lemma vendor_page_plain abi_return :
  forallb plain_id (vendor_page_batches abi_return) = true.
Proof.
  unfold vendor_page_batches.
  set (raw := match abi_return with
              | Some s => if String.eqb s "" then "" else s
              | None => ""
              end).
  pose proof (split_pieces "|" raw) as Hs.
  induction Hs as [|p ps Hp _ IH]; [done|]. cbn [List.filter].
  destruct (String.eqb p "") eqn:Hpe; [done|]. cbn [negb forallb].
  rewrite IH, andb_true_r. unfold plain_id. by rewrite Hpe, Hp.
Qed.

(** X16. What the [vendor] page makes of a list: splitting the
    ["|"]-join of identifiers at every ["|"] and dropping the empty pieces
    gives the identifiers back, in order, if and only if every identifier
    is plain (not empty, no ["|"] in it); any other identifier comes out in
    pieces or not at all. *)
Theorem X16_vendor_page (ids : list Bytes) :
  vendor_page_batches (Some (join "|" ids)) = ids
  ↔ forallb plain_id ids = true.
Proof.
  split.
  - intros <-. apply vendor_page_plain.
  - apply vendor_page_join.
Qed.

(** ** The scenario, run *)

(** What the five calls of the scenario answer, one after the other from
    deployment: the two assignments stop at the audit line, and are
    rejected; the accounts then have no role. *)
Example scenario_answers :
  map snd (snd (run KeepsLength "ADMIN" init_world scenario_calls))
  = [ Failed (AttributeError "hex");
      Failed (AttributeError "hex");
      Failed (AssertFailed "Sender has no assigned role");
      Failed (AssertFailed "Sender has no assigned role");
      Failed (AssertFailed "Sender has no assigned role") ].
Proof. vm_compute. reflexivity. Qed.

(** The boxes the programs of the five calls write. *)
Example scenario_boxes :
  boxes (scenario_world 5)
  = <[role_key "A1" := itob 1]>
      (<[role_key "A2" := itob 2]>
         (<[state_key "B-100" := itob 2]>
            (<[vendor_key "A1" := "B-100"]>
               (<[asset_key "B-100" := itob 1001]> ∅)))) ∧
  logs (scenario_world 5) = [].
Proof. split; vm_compute; reflexivity. Qed.

(** The reads in the worlds of the scenario. *)
Example scenario_reads :
  map (fun n =>
         snd (app_call KeepsLength "ADMIN" (scenario_world n)
                (Call "X" None (Get_batch_status_v2 "B-100"))))
      [2; 3; 4; 5]%nat
  = [ Returned (RUInt64 99); Returned (RUInt64 0); Returned (RUInt64 1);
      Returned (RUInt64 2) ] ∧
  snd (app_call KeepsLength "ADMIN" (scenario_world 5)
         (Call "X" None (Get_batch_asset "B-100")))
  = Returned (RUInt64 1001) ∧
  snd (app_call KeepsLength "ADMIN" (scenario_world 5)
         (Call "X" None (Get_vendor_batches "A1")))
  = Failed (AttributeError "decode") ∧
  snd (app_call KeepsLength "ADMIN" (scenario_world 5)
         (Call "X" None (Get_vendor_batches "A2")))
  = Returned (RString "").
Proof. repeat split; vm_compute; reflexivity. Qed.

(** The page of a vendor whose identifiers are plain, and of one whose
    identifiers are not. *)
Example vendor_page_examples :
  vendor_page_batches (Some "B-100|B-101") = ["B-100"; "B-101"] ∧
  vendor_page_batches (Some "a|b") = ["a"; "b"] ∧
  vendor_page_batches (Some "|x||") = ["x"] ∧
  vendor_page_batches (Some "") = [] ∧
  vendor_page_batches None = [] ∧
  split "|" "" = [""] ∧ split "|" "a||b|" = ["a"; ""; "b"; ""].
Proof. repeat split. Qed.

(** ** The claims at work on the scenario *)

(** The program of the approval of the scenario takes the state box of
    [B-100] from 0 to 1. *)
Lemma C1_monotonic_transitions_witness :
  stored_state (scenario_world 3) "B-100" = Some 0 ∧
  boxes (leaves KeepsLength "ADMIN" (scenario_world 3)
           (Call "A2" None (Approve_batch_v2 "B-100")))
    !! state_key "B-100" = Some (itob 1).
Proof.
  split; [reflexivity|].
  destruct (proj2 (proj2 (proj2 (proj2 (proj2 (proj2
    (C1_monotonic_transitions KeepsLength "ADMIN"
       (scenario_world 3) (scenario_world 3)
       (Call "A2" None (Approve_batch_v2 "B-100"))
       (Failed (AttributeError "hex")) "B-100" eq_refl)))))) (itob 0) eq_refl)
    as [H|[(_ & H & _)|(H & _)]].
  - vm_compute in H. discriminate.
  - exact H.
  - vm_compute in H. discriminate.
Defined.

(** The inspector of the scenario may not create a batch. *)
Lemma C2_role_gate_witness :
  ∃ f, app_call KeepsLength "ADMIN" (scenario_world 2)
         (Call "A2" None (Create_batch_v2 "B-100"))
       = (scenario_world 2, Failed f) ∧
       classify f = Unauthorized ∧
       create_batch_v2 KeepsLength "A2" "B-100" (scenario_world 2)
       = Abort f (scenario_world 2).
Proof.
  refine (proj2 (proj1
    (C2_role_gate KeepsLength "ADMIN" (scenario_world 2)
       "A2" None "B-100" "A1" 1 (scenario_world_ok _))) _).
  vm_compute. discriminate.
Defined.

(** The program of the certification of the scenario finds no asset box
    and leaves the identifier assigned by the ledger in it. *)
Lemma C3_certification_unique_witness :
  boxes (scenario_world 4) !! asset_key "B-100" = None ∧
  stored_state (scenario_world 4) "B-100" = Some 1 ∧
  boxes (leaves KeepsLength "ADMIN" (scenario_world 4)
           (Call "A2" (Some 1001) (Certify_batch "B-100")))
    !! asset_key "B-100" = Some (itob 1001).
Proof.
  destruct (proj1 (proj2 (proj2 (proj2
    (C3_certification_unique KeepsLength "ADMIN"
       (scenario_world 4) (scenario_world 4)
       (Call "A2" (Some 1001) (Certify_batch "B-100"))
       (Failed (AttributeError "hex")) "B-100"
       (scenario_world_ok _) eq_refl)))))
    as (Ha & _ & _ & Hs & _ & asa_id & Hm & Hid).
  - vm_compute. discriminate.
  - injection Hm as <-. exact (conj Ha (conj Hs Hid)).
Defined.

(** The vendor of the scenario creating [B-100] a second time. *)
Lemma C4_second_create_fails_witness :
  ∃ f, app_call KeepsLength "ADMIN" (scenario_world 3)
         (Call "A1" None (Create_batch_v2 "B-100"))
       = (scenario_world 3, Failed f) ∧
       classify f =
         (if decide (stored_role (scenario_world 3) "A1" = Some 1)
          then AlreadyExists else Unauthorized) ∧
       create_batch_v2 KeepsLength "A1" "B-100" (scenario_world 3)
       = Abort f (scenario_world 3).
Proof.
  refine (C4_second_create_fails KeepsLength "ADMIN"
            (scenario_world 3) "A1" None "B-100" (itob 0)
            (scenario_world_ok _) _).
  vm_compute. reflexivity.
Defined.

(** C4, as stated, fails: with the state box of [B-100] in place, an
    account without a role that creates [B-100] again is turned away by the
    role check, with a failure of class [Unauthorized], not
    [AlreadyExists]. *)
Lemma C4_counterexample :
  ¬ (∀ (rule : put_rule) (creator_address : Address) (w : world)
       (s : Address) (mt : option N) (b x : Bytes),
       world_ok w ->
       boxes w !! state_key b = Some x ->
       ∃ f, app_call rule creator_address w (Call s mt (Create_batch_v2 b))
              = (w, Failed f) ∧
            classify f = AlreadyExists).
Proof.
  intros H.
  destruct (H KeepsLength "ADMIN" (scenario_world 3) "X" None
              "B-100" (itob 0) (scenario_world_ok _))
    as (f & Hf & Hc).
  - vm_compute. reflexivity.
  - vm_compute in Hf. injection Hf as <-. vm_compute in Hc. discriminate.
Qed.

(** In the last world of the scenario, batch [B-200] has no state box. *)
Lemma C5_fresh_batch_reads_witness :
  app_call KeepsLength "ADMIN" (scenario_world 5)
    (Call "X" None (Get_batch_status_v2 "B-200"))
  = (scenario_world 5, Returned (RUInt64 99)) ∧
  app_call KeepsLength "ADMIN" (scenario_world 5)
    (Call "X" None (Get_batch_asset "B-200"))
  = (scenario_world 5, Returned (RUInt64 0)).
Proof.
  pose proof (proj2 (C5_fresh_batch_reads KeepsLength "ADMIN" scenario_calls
    (fst (run KeepsLength "ADMIN" init_world scenario_calls))
    (snd (run KeepsLength "ADMIN" init_world scenario_calls))
    "B-200" "X" None eq_refl eq_refl)
    (scenario_world 5) (scenario_world_ok _) eq_refl) as (H1 & H2 & _).
  exact (conj H1 H2).
Defined.

(** The list of the vendor of the scenario cannot be read. *)
Lemma C6_vendor_list_unreadable_witness :
  boxes (scenario_world 3) !! vendor_key "A1" = Some "B-100" ∧
  app_call KeepsLength "ADMIN" (scenario_world 3)
    (Call "X" None (Get_vendor_batches "A1"))
  = (scenario_world 3, Failed (AttributeError "decode")).
Proof.
  split; [reflexivity|].
  refine (proj2 (proj1
    (C6_vendor_list_unreadable KeepsLength "ADMIN" (scenario_world 3)
       "A1" "X" None "B-100") "B-100" _)).
  reflexivity.
Defined.

(** The first call of the scenario: the administrator gives [A1] the
    Vendor role right after deployment.  The role box is written, and the
    method stops at the audit line. *)
Lemma C7_assign_role_witness :
  assign_role KeepsLength "ADMIN" "ADMIN" "A1" 1 init_world
  = Abort (AttributeError "hex")
      (World (<[role_key "A1" := itob 1]> (boxes init_world))
         (logs init_world)).
Proof.
  refine (proj1 (proj2 (proj2
    (C7_assign_role KeepsLength "ADMIN" init_world
       "ADMIN" None "A1" 1 init_world_ok))) _ _).
  - reflexivity.
  - left. reflexivity.
Defined.


(** The vendor of the scenario creating ["a|b"] as a first batch. *)
Lemma C9_delimiter_accepted_witness :
  create_batch_v2 KeepsLength "A1" "a|b" (scenario_world 2)
  = Abort (AttributeError "hex")
      (World (<[vendor_key "A1" := "a|b"]>
                (<[state_key "a|b" := itob 0]> (boxes (scenario_world 2))))
         (logs (scenario_world 2))).
Proof.
  refine (proj1
    (C9_delimiter_accepted "ADMIN" (scenario_world 2) "A1" None "a|b")
    _ _ _); reflexivity.
Defined.

(** ** The further properties at work on the scenario *)

Lemma X1_get_role_total_witness :
  ∃ n, app_call KeepsLength "ADMIN" (scenario_world 2)
         (Call "X" None (Get_role "A1"))
       = (scenario_world 2, Returned (RUInt64 n)) ∧
       ("A1" = "ADMIN" -> n = 0) ∧
       ("A1" ≠ "ADMIN" ->
        (stored_role (scenario_world 2) "A1" = None ∧ n = 99) ∨
        (stored_role (scenario_world 2) "A1" = Some n ∧ (n = 1 ∨ n = 2))).
Proof.
  exact (X1_get_role_total KeepsLength "ADMIN" (scenario_world 2)
           "X" None "A1" (scenario_world_ok _)).
Defined.

Lemma X3_roles_only_by_creator_witness :
  boxes (leaves KeepsLength "ADMIN" (scenario_world 2)
           (Call "A1" None (Assign_role "A1" 2)))
    !! role_key "A1"
  = boxes (scenario_world 2) !! role_key "A1".
Proof.
  refine (proj2 (proj2
    (X3_roles_only_by_creator KeepsLength "ADMIN"
       (scenario_world 2) (scenario_world 2)
       (Call "A1" None (Assign_role "A1" 2))
       (Failed (AssertFailed "Only admin can assign roles"))
       "A1" _ _))).
  - vm_compute. reflexivity.
  - discriminate.
Defined.

Lemma X5_approve_outcomes_witness :
  approve_batch_v2 KeepsLength "A2" "B-100" (scenario_world 3)
  = Abort (AttributeError "hex")
      (World (<[state_key "B-100" := itob 1]> (boxes (scenario_world 3)))
         (logs (scenario_world 3))).
Proof.
  refine (proj1 (proj2
    (X5_approve_outcomes KeepsLength "ADMIN" (scenario_world 3)
       "A2" None "B-100" (scenario_world_ok _) _)) _); reflexivity.
Defined.

Lemma X6_certify_outcomes_witness :
  ∃ f, app_call KeepsLength "ADMIN" (scenario_world 3)
         (Call "ADMIN" (Some 7) (Certify_batch "B-100"))
       = (scenario_world 3, Failed f) ∧
       classify f = InvalidTransition.
Proof.
  refine (proj1 (proj2
    (X6_certify_outcomes KeepsLength "ADMIN" (scenario_world 3)
       "ADMIN" "B-100" (scenario_world_ok _) _)) (Some 7) 0 _ _).
  - left. reflexivity.
  - reflexivity.
  - discriminate.
Defined.

Lemma X7_create_outcome_witness :
  create_batch_v2 KeepsLength "A1" "B-101" (scenario_world 3)
  = Abort BoxPutLength
      (World (<[state_key "B-101" := itob 0]> (boxes (scenario_world 3)))
         (logs (scenario_world 3))).
Proof.
  refine (proj2
    (X7_create_outcome KeepsLength (scenario_world 3) "A1" "B-101" _ _)
    "B-100" _); reflexivity.
Defined.



Lemma X17_sentinels_witness :
  app_call KeepsLength "ADMIN" (scenario_world 5)
    (Call "X" None (Get_batch_status_v2 "B-200"))
  = (scenario_world 5, Returned (RUInt64 99)).
Proof.
  refine (proj2 (proj1
    (X17_sentinels KeepsLength "ADMIN" (scenario_world 5)
       "X" None "B-200" "A9" (scenario_world_ok _))) _).
  reflexivity.
Defined.



Lemma X12_no_event_no_return_witness :
  ∃ f, snd (app_call KeepsLength "ADMIN" init_world
              (Call "ADMIN" None (Assign_role "A1" 1))) = Failed f.
Proof.
  refine (proj2 (proj2 (proj2
    (X12_no_event_no_return KeepsLength "ADMIN" init_world
       (Call "ADMIN" None (Assign_role "A1" 1)) []))) _).
  reflexivity.
Defined.

Lemma X2_assign_then_get_role_witness :
  app_call KeepsLength "ADMIN" (scenario_world 2)
    (Call "X" None (Get_role "A2"))
  = (scenario_world 2, Returned (RUInt64 2)).
Proof.
  refine (proj1 (proj2
    (X2_assign_then_get_role KeepsLength "ADMIN" (scenario_world 1)
       "X" None None "A2" 2 (scenario_world_ok _) _)) _).
  - right. reflexivity.
  - discriminate.
Defined.

Lemma X4_creator_with_vendor_role_witness :
  app_call KeepsLength "ADMIN"
    (leaves KeepsLength "ADMIN" init_world
       (Call "ADMIN" None (Assign_role "ADMIN" 1)))
    (Call "X" None (Get_role "ADMIN"))
  = (leaves KeepsLength "ADMIN" init_world
       (Call "ADMIN" None (Assign_role "ADMIN" 1)),
     Returned (RUInt64 0)) ∧
  boxes (leaves KeepsLength "ADMIN"
           (leaves KeepsLength "ADMIN" init_world
              (Call "ADMIN" None (Assign_role "ADMIN" 1)))
           (Call "ADMIN" None (Create_batch_v2 "B-7")))
    !! state_key "B-7" = Some (itob 0).
Proof.
  refine (X4_creator_with_vendor_role KeepsLength "ADMIN"
            (leaves KeepsLength "ADMIN" init_world
               (Call "ADMIN" None (Assign_role "ADMIN" 1)))
            "X" None "B-7" _ _); vm_compute; reflexivity.
Defined.

Lemma X8_read_after_write_witness :
  app_call KeepsLength "ADMIN" (scenario_world 5)
    (Call "X" None (Get_batch_status_v2 "B-100"))
  = (scenario_world 5, Returned (RUInt64 2)) ∧
  app_call KeepsLength "ADMIN" (scenario_world 5)
    (Call "X" None (Get_batch_asset "B-100"))
  = (scenario_world 5, Returned (RUInt64 1001)).
Proof.
  refine (proj2 (proj2
    (X8_read_after_write KeepsLength "ADMIN" (scenario_world 4)
       "A2" "X" None None "B-100" (scenario_world_ok _))) _ _ 1001 _).
  - right. reflexivity.
  - reflexivity.
  - reflexivity.
Defined.
